(** * Call Analyzer frontend: Dashboard and CallDetails handlers

    A shallow embedding of the two React pages of the frontend
    ([src/frontend/src/pages/Dashboard.js] and [CallDetails.js]).

    The handlers are asynchronous functions that talk to a REST backend
    through axios, update component state, show toasts and navigate.  They
    are embedded in a small state-and-exception monad over a world that
    holds the component state, the chronological trace of observable
    effects and the pending timers; the backend is a parameter of the
    development.  The pure rendering helpers ([getStatusBadge], [stats],
    the Score cell) are embedded as functions. *)

From Stdlib Require Import ZArith QArith Qround List Sorted String Ascii Bool Lia.
From Stdlib Require Import DecimalString.
Import ListNotations.
Open Scope string_scope.
Open Scope Z_scope.
Set Warnings "-register-all".

(* ================================================================== *)
(** ** JavaScript values *)
(* ================================================================== *)

Module Js.

(** [Number.MAX_SAFE_INTEGER], 2^53 - 1. *)
Definition MAX_SAFE_INTEGER : Z := 9007199254740991.

Definition is_safe (z : Z) : bool := Z.abs z <=? MAX_SAFE_INTEGER.

(** The numbers of the model are the safe integers: each of them is a
    double, distinct from its neighbours, and is printed with all its
    digits. *)
Record SafeInteger := {
  int_value : Z;
  int_safe : is_safe int_value = true
}.

Abbreviation safe z := (Build_SafeInteger z eq_refl).

(** JSON-like values as the handlers see them.  [JsNum text] is a number
    that is not a safe integer (a fraction, a large number), given by the
    text that printing it produces, which is all the pages do with it;
    JSON has no NaN, so such a number is never 0 or NaN.  [JsBlob] is the
    body axios hands back under [responseType: "blob"]. *)
Inductive JsValue : Type :=
| JsUndefined
| JsNull
| JsBool (b : bool)
| JsInt (n : SafeInteger)
| JsNum (text : string)
| JsStr (s : string)
| JsArr (items : list JsValue)
| JsObj (props : list (string * JsValue))
| JsBlob (bytes : string).

(** ToBoolean. *)
Definition truthy (v : JsValue) : bool :=
  match v with
  | JsUndefined | JsNull => false
  | JsBool b => b
  | JsInt n => negb (int_value n =? 0)
  | JsNum _ => true
  | JsStr s => negb (String.eqb s "")
  | JsArr _ | JsObj _ | JsBlob _ => true
  end.

(** [a || b]. *)
Definition logical_or (a b : JsValue) : JsValue := if truthy a then a else b.

Definition nullish (v : JsValue) : bool :=
  match v with
  | JsUndefined | JsNull => true
  | _ => false
  end.

Fixpoint lookup (k : string) (props : list (string * JsValue)) : option JsValue :=
  match props with
  | [] => None
  | (k', v) :: rest => if String.eqb k k' then Some v else lookup k rest
  end.

(** [v.k] for the keys the pages read ([call_id], [detail], [filename],
    the analysis fields); none of them is defined on a built-in prototype,
    so the own properties decide.  [None] is the TypeError raised when [v]
    is [null] or [undefined]. *)
Definition prop (v : JsValue) (k : string) : option JsValue :=
  match v with
  | JsUndefined | JsNull => None
  | JsObj props =>
      match lookup k props with
      | Some x => Some x
      | None => Some JsUndefined
      end
  | _ => Some JsUndefined
  end.

(** [v?.k]. *)
Definition optprop (v : JsValue) (k : string) : JsValue :=
  match prop v k with
  | Some x => x
  | None => JsUndefined
  end.

Definition string_of_Z (z : Z) : string := NilZero.string_of_int (Z.to_int z).

(** ToString, as a template literal and a property key apply it; [None]
    is the TypeError of a value that cannot be converted.  An object
    parsed from JSON converts through [Object.prototype.toString] unless
    it has an own property [toString], which is never callable and
    leaves no primitive to return; an array joins the conversions of its
    items, [null] and [undefined] counting as empty. *)
Fixpoint toString (v : JsValue) : option string :=
  match v with
  | JsUndefined => Some "undefined"
  | JsNull => Some "null"
  | JsBool true => Some "true"
  | JsBool false => Some "false"
  | JsInt n => Some (string_of_Z (int_value n))
  | JsNum text => Some text
  | JsStr s => Some s
  | JsArr items =>
      (fix join (l : list JsValue) : option string :=
         match l with
         | [] => Some ""
         | x :: rest =>
             match (if nullish x then Some "" else toString x) with
             | None => None
             | Some sx =>
                 match rest with
                 | [] => Some sx
                 | _ :: _ =>
                     match join rest with
                     | Some sr => Some (sx ++ "," ++ sr)
                     | None => None
                     end
                 end
             end
         end) items
  | JsObj props =>
      match lookup "toString" props with
      | Some _ => None
      | None => Some "[object Object]"
      end
  | JsBlob _ => Some "[object Blob]"
  end.

(** [String.prototype.toUpperCase] on ASCII text. *)
Definition upper_ascii (c : ascii) : ascii :=
  let n := nat_of_ascii c in
  if (Nat.leb 97 n && Nat.leb n 122)%bool then ascii_of_nat (n - 32) else c.

Fixpoint toUpperCase (s : string) : string :=
  match s with
  | EmptyString => EmptyString
  | String c rest => String (upper_ascii c) (toUpperCase rest)
  end.

End Js.
Import Js.
(* ================================================================== *)
(** ** HTTP, effects and the handler monad *)
(* ================================================================== *)

Record File := { file_name : string; file_bytes : string }.

Inductive Method := GET | POST.

(** What [axios.get] / [axios.post] is called with. *)
Record Request := {
  req_method : Method;
  req_url : string;
  req_body : list (string * File);       (* FormData entries, [] when no body *)
  req_headers : list (string * string);
  req_responseType : option string
}.

Record Response := { data : JsValue }.

(** A settled axios promise.  A rejection carries the axios error's
    [response], absent on a network error. *)
Inductive Outcome :=
| Resolved (r : Response)
| Rejected (response : option Response).

(** What a [catch] clause can receive. *)
Inductive JsError :=
| AxiosError (response : option Response)
| TypeError.

(** The backend is an external collaborator: any function of the requests
    served so far and the current request. *)
Definition Backend := list Request -> Request -> Outcome.

(** The only closure handed to [setTimeout] (Dashboard.js:67-71). *)
Inductive Callback := UploadDone (callId : JsValue).

(** Observable effects, in the order they happen. *)
Inductive Event :=
| HttpSend (r : Request)
| HttpSettle (r : Request) (o : Outcome)
| SetCalls (v : JsValue)
| SetUploading (b : bool)
| SetUploadProgress (n : Z)
| SetCallData (v : JsValue)
| SetLoading (b : bool)
| ToastSuccess (msg : string)
| ToastError (msg : JsValue)
| ConsoleError (label : string) (e : JsError)
| SetTimeout (cb : Callback) (ms : Z)
| TimerFired (cb : Callback)
| Navigate (path : string)
| CreateObjectURL (blobParts : list JsValue)
| LinkAppend
| LinkClick (href : list JsValue) (download : string)
| LinkRemove
| UncaughtError (e : JsError).

Record World (S : Type) := mkWorld {
  comp : S;                        (* component state *)
  trace : list Event;
  timers : list (Callback * Z)
}.
Arguments mkWorld {S}.
Arguments comp {S}.
Arguments trace {S}.
Arguments timers {S}.

Inductive Result (A : Type) :=
| Ok (a : A)
| Throw (e : JsError).
Arguments Ok {A}.
Arguments Throw {A}.

Definition M (S A : Type) := World S -> Result A * World S.

Definition ret {S A} (a : A) : M S A := fun w => (Ok a, w).

Definition bind {S A B} (m : M S A) (k : A -> M S B) : M S B :=
  fun w =>
    match m w with
    | (Ok a, w') => k a w'
    | (Throw e, w') => (Throw e, w')
    end.

Definition throw {S A} (e : JsError) : M S A := fun w => (Throw e, w).

(** [try { body } catch (error) { handler error }]. *)
Definition try_catch {S A} (body : M S A) (handler : JsError -> M S A) : M S A :=
  fun w =>
    match body w with
    | (Ok a, w') => (Ok a, w')
    | (Throw e, w') => handler e w'
    end.

Declare Scope js_scope.
Delimit Scope js_scope with js.
Notation "x <- m ;; k" := (bind m (fun x => k))
  (at level 61, m at next level, right associativity) : js_scope.
Notation "m ;; k" := (bind m (fun _ => k))
  (at level 61, right associativity) : js_scope.
Open Scope js_scope.

Definition emit {S} (e : Event) : M S unit :=
  fun w => (Ok tt, mkWorld (comp w) (trace w ++ [e]) (timers w)).

Definition modify {S} (f : S -> S) : M S unit :=
  fun w => (Ok tt, mkWorld (f (comp w)) (trace w) (timers w)).

Definition requests_of (t : list Event) : list Request :=
  flat_map (fun e => match e with HttpSend r => [r] | _ => [] end) t.

Definition setTimeout {S} (cb : Callback) (ms : Z) : M S unit :=
  fun w => (Ok tt, mkWorld (comp w) (trace w ++ [SetTimeout cb ms]) (timers w ++ [(cb, ms)])).

(** [v.k], raising TypeError on [null] / [undefined]. *)
Definition get_prop {S} (v : JsValue) (k : string) : M S JsValue :=
  match prop v k with
  | Some x => ret x
  | None => throw TypeError
  end.

(** The conversion of [v] inside a template literal, raising TypeError
    when [v] cannot be converted. *)
Definition to_string {S} (v : JsValue) : M S string :=
  match toString v with
  | Some s => ret s
  | None => throw TypeError
  end.

Section Client.

Variable backend : Backend.

(** [await axios(...)]: the request is sent, the handler is suspended
    until the promise settles, and resumes with the response or with the
    rejection thrown. *)
Definition axios {S} (r : Request) : M S Response :=
  fun w =>
    let o := backend (requests_of (trace w)) r in
    let w' := mkWorld (comp w) (trace w ++ [HttpSend r; HttpSettle r o]) (timers w) in
    match o with
    | Resolved resp => (Ok resp, w')
    | Rejected response => (Throw (AxiosError response), w')
    end.

Definition axios_get {S} (url : string) (responseType : option string) : M S Response :=
  axios {| req_method := GET; req_url := url; req_body := [];
           req_headers := []; req_responseType := responseType |}.

Definition axios_post {S} (url : string) (body : list (string * File))
    (headers : list (string * string)) : M S Response :=
  axios {| req_method := POST; req_url := url; req_body := body;
           req_headers := headers; req_responseType := None |}.

(** [process.env.REACT_APP_BACKEND_URL]: a string, or [undefined]
    ([None]) when the variable is not set. *)
Variable BACKEND_URL : option string.

(** [`${BACKEND_URL}/api`]. *)
Definition API : string :=
  match BACKEND_URL with
  | Some url => url
  | None => "undefined"
  end ++ "/api".

(* ---------------------------------------------------------------- *)
(** *** Dashboard.js *)
(* ---------------------------------------------------------------- *)

(** [useState([])], [useState(false)], [useState(0)]. *)
Record DashState := mkDash {
  calls : JsValue;
  uploading : bool;
  uploadProgress : Z
}.

Definition dash_init : DashState :=
  {| calls := JsArr []; uploading := false; uploadProgress := 0 |}.

Definition setCalls (v : JsValue) : M DashState unit :=
  modify (fun s => mkDash v (uploading s) (uploadProgress s)) ;; emit (SetCalls v).

Definition setUploading (b : bool) : M DashState unit :=
  modify (fun s => mkDash (calls s) b (uploadProgress s)) ;; emit (SetUploading b).

Definition setUploadProgress (n : Z) : M DashState unit :=
  modify (fun s => mkDash (calls s) (uploading s) n) ;; emit (SetUploadProgress n).

(** Dashboard.js:24-32. *)
Definition fetchCalls : M DashState unit :=
  try_catch
    (response <- axios_get (API ++ "/calls") None ;;
     setCalls (data response))
    (fun error =>
       emit (ConsoleError "Error fetching calls:" error) ;;
       emit (ToastError (JsStr "Failed to load calls"))).

(** The three pipeline requests of Dashboard.js:46, 55 and 60. *)
Definition upload_request (file : File) : Request :=
  {| req_method := POST; req_url := API ++ "/upload-call";
     req_body := [("file", file)];
     req_headers := [("Content-Type", "multipart/form-data")];
     req_responseType := None |}.

(** [id] is the call identifier as the template literal prints it. *)
Definition transcribe_request (id : string) : Request :=
  {| req_method := POST; req_url := API ++ "/transcribe/" ++ id;
     req_body := []; req_headers := []; req_responseType := None |}.

Definition analyze_request (id : string) : Request :=
  {| req_method := POST; req_url := API ++ "/analyze/" ++ id;
     req_body := []; req_headers := []; req_responseType := None |}.

(** The awaited calls of Dashboard.js:46-48, 55 and 60. *)
Definition uploadCall (formData : list (string * File)) : M DashState Response :=
  axios_post (API ++ "/upload-call") formData
             [("Content-Type", "multipart/form-data")].

Definition transcribe (callId : JsValue) : M DashState Response :=
  id <- to_string callId ;;
  axios_post (API ++ "/transcribe/" ++ id) [] [].

Definition analyze (callId : JsValue) : M DashState Response :=
  id <- to_string callId ;;
  axios_post (API ++ "/analyze/" ++ id) [] [].

(** [error.response?.data?.detail]. *)
Definition error_detail (error : JsError) : JsValue :=
  match error with
  | AxiosError (Some response) => optprop (data response) "detail"
  | AxiosError None => JsUndefined
  | TypeError => JsUndefined
  end.

(** Dashboard.js:34-78; [files] is [event.target.files]. *)
Definition handleFileUpload (files : list File) : M DashState unit :=
  match nth_error files 0 with
  | None => ret tt
  | Some file =>
      setUploading true ;;
      setUploadProgress 10 ;;
      try_catch
        (let formData := [("file", file)] in
         setUploadProgress 30 ;;
         uploadResponse <- uploadCall formData ;;
         callId <- get_prop (data uploadResponse) "call_id" ;;
         setUploadProgress 50 ;;
         emit (ToastSuccess "File uploaded! Starting transcription...") ;;
         _ <- transcribe callId ;;
         setUploadProgress 75 ;;
         emit (ToastSuccess "Transcription complete! Analyzing call...") ;;
         _ <- analyze callId ;;
         setUploadProgress 100 ;;
         emit (ToastSuccess "Analysis complete!") ;;
         fetchCalls ;;
         setTimeout (UploadDone callId) 1000)
        (fun error =>
           emit (ConsoleError "Upload error:" error) ;;
           emit (ToastError (logical_or (error_detail error) (JsStr "Upload failed"))) ;;
           setUploading false ;;
           setUploadProgress 0)
  end.

(** The body of the timer callback, Dashboard.js:68-70. *)
Definition run_callback (cb : Callback) : M DashState unit :=
  match cb with
  | UploadDone callId =>
      setUploading false ;;
      setUploadProgress 0 ;;
      id <- to_string callId ;;
      emit (Navigate ("/call/" ++ id))
  end.

(** Each elapsed timer runs its callback as a task of its own: an
    exception it throws is reported and the next timer still runs. *)
Fixpoint fire_all (cbs : list (Callback * Z)) : M DashState unit :=
  match cbs with
  | [] => ret tt
  | (cb, _) :: rest =>
      emit (TimerFired cb) ;;
      try_catch (run_callback cb) (fun error => emit (UncaughtError error)) ;;
      fire_all rest
  end.

(** The event loop letting every pending timer elapse. *)
Definition flush_timers : M DashState unit :=
  fun w => fire_all (timers w) (mkWorld (comp w) (trace w) []).

(** One upload run: the change handler, then the timer it may have set. *)
Definition upload_run (files : list File) : M DashState unit :=
  handleFileUpload files ;; flush_timers.

(* ---------------------------------------------------------------- *)
(** *** CallDetails.js *)
(* ---------------------------------------------------------------- *)

(** [useState(null)], [useState(true)]. *)
Record DetailsState := mkDetails {
  callData : JsValue;
  loading : bool
}.

Definition details_init : DetailsState :=
  {| callData := JsNull; loading := true |}.

Definition setCallData (v : JsValue) : M DetailsState unit :=
  modify (fun s => mkDetails v (loading s)) ;; emit (SetCallData v).

Definition setLoading (b : bool) : M DetailsState unit :=
  modify (fun s => mkDetails (callData s) b) ;; emit (SetLoading b).

(** The route parameter of [/call/:callId]. *)
Variable callId : string.

Definition export_request (format : string) : Request :=
  {| req_method := GET; req_url := API ++ "/export/" ++ callId ++ "/" ++ format;
     req_body := []; req_headers := []; req_responseType := Some "blob" |}.

(** CallDetails.js:25-35. *)
Definition fetchCallDetails : M DetailsState unit :=
  try_catch
    (response <- axios_get (API ++ "/calls/" ++ callId) None ;;
     setCallData (data response) ;;
     setLoading false)
    (fun error =>
       emit (ConsoleError "Error fetching call details:" error) ;;
       emit (ToastError (JsStr "Failed to load call details")) ;;
       setLoading false).

(** CallDetails.js:37-56.  [callData] is the state of the render whose
    button was clicked. *)
Definition handleExport (format : string) : M DetailsState unit :=
  fun w =>
    let callData := callData (comp w) in
    try_catch
      (response <- axios_get (API ++ "/export/" ++ callId ++ "/" ++ format)
                             (Some "blob") ;;
       let blob := [data response] in
       emit (CreateObjectURL blob) ;;
       filename <- get_prop callData "filename" ;;
       name <- to_string filename ;;
       let download := name ++ "_report." ++ format in
       emit LinkAppend ;;
       emit (LinkClick blob download) ;;
       emit LinkRemove ;;
       emit (ToastSuccess ("Report exported as " ++ toUpperCase format)))
      (fun error =>
         emit (ConsoleError "Export error:" error) ;;
         emit (ToastError (JsStr "Failed to export report")))
      w.

(** CallDetails.js:58-78: the export buttons exist only in the render
    reached when [loading] is false and [callData] is truthy. *)
Definition export_buttons_rendered (s : DetailsState) : bool :=
  negb (loading s) && truthy (callData s).

(** A click on an export button ([onClick={() => handleExport(format)}],
    CallDetails.js:109 and 117). *)
Definition click_export (format : string) : M DetailsState unit :=
  fun w =>
    if export_buttons_rendered (comp w) then handleExport format w
    else (Ok tt, w).

End Client.

Definition start {S} (s : S) : World S := mkWorld s [] [].

(* ================================================================== *)
(** ** Rendering helpers of Dashboard.js *)
(* ================================================================== *)

(** The fields of a call record that the dashboard reads.
    [overall_score] is an integer score, or [None] when the property is
    absent or [null]. *)
Record Call := {
  id : string;
  filename : string;
  upload_timestamp : string;
  analysis_status : JsValue;
  overall_score : option SafeInteger
}.

Definition score_value (c : Call) : JsValue :=
  match overall_score c with
  | Some n => JsInt n
  | None => JsUndefined
  end.

Record Config := {
  variant : string;
  label : string;
  className : option string
}.

Record Badge := {
  badge_className : option string;
  badge_testid : string;
  badge_label : option string
}.

(** The object literal of Dashboard.js:81-86, in source order. *)
Definition statusConfig : list (string * Config) :=
  [ ("completed", {| variant := "default"; label := "Completed";
                     className := Some "bg-emerald-500 hover:bg-emerald-600" |});
    ("processing", {| variant := "secondary"; label := "Processing";
                      className := Some "bg-amber-500 hover:bg-amber-600" |});
    ("pending", {| variant := "outline"; label := "Pending";
                   className := Some "border-slate-400 text-slate-600" |});
    ("failed", {| variant := "destructive"; label := "Failed";
                  className := None |}) ].

Definition statusConfig_pending : Config :=
  {| variant := "outline"; label := "Pending";
     className := Some "border-slate-400 text-slate-600" |}.

(** An object literal inherits from [Object.prototype]; these are its
    property names, each bound to a function (or, for [__proto__], to the
    prototype object itself). *)
Definition Object_prototype_keys : list string :=
  [ "constructor"; "__defineGetter__"; "__defineSetter__"; "hasOwnProperty";
    "__lookupGetter__"; "__lookupSetter__"; "isPrototypeOf";
    "propertyIsEnumerable"; "toString"; "valueOf"; "__proto__";
    "toLocaleString" ].

(** The result of [statusConfig[key]]. *)
Inductive Lookup :=
| Own (c : Config)
| Inherited (name : string)
| Missing.

Fixpoint own_config (k : string) (o : list (string * Config)) : option Config :=
  match o with
  | [] => None
  | (k', c) :: rest => if String.eqb k k' then Some c else own_config k rest
  end.

Definition statusConfig_get (key : string) : Lookup :=
  match own_config key statusConfig with
  | Some c => Own c
  | None =>
      if existsb (String.eqb key) Object_prototype_keys
      then Inherited key
      else Missing
  end.

(** Dashboard.js:80-89.  The key of [statusConfig[status]] is
    [ToString(status)], and so is the text put in the test id; [None] is
    the TypeError of a status that cannot be converted.  A config object
    and an inherited built-in are both truthy, and a built-in has neither
    [className] nor [label]. *)
Definition getStatusBadge (status : JsValue) : option Badge :=
  match toString status with
  | None => None
  | Some key =>
      let testid := "status-badge-" ++ key in
      Some
        match statusConfig_get key with
        | Own config =>
            {| badge_className := className config; badge_testid := testid;
               badge_label := Some (label config) |}
        | Inherited _ =>
            {| badge_className := None; badge_testid := testid; badge_label := None |}
        | Missing =>
            {| badge_className := className statusConfig_pending;
               badge_testid := testid;
               badge_label := Some (label statusConfig_pending) |}
        end
  end.

(** The Score cell, Dashboard.js:233-239; [None] would be the TypeError
    of a score that cannot be printed. *)
Definition score_cell (call : Call) : option string :=
  if truthy (score_value call)
  then match toString (score_value call) with
       | Some text => Some (text ++ "/100")
       | None => None
       end
  else Some "-".

(** Results of arithmetic on numbers. *)
Inductive number :=
| Fin (q : Q)
| NaN
| Infinity (negative : bool).

(** [a / b] on integer-valued operands: the exact quotient.  The double
    quotient is the nearest double to it; see [exact_scores] for when
    rounding the two with [Math.round] gives the same integer. *)
Definition js_div (a b : Z) : number :=
  if b =? 0 then
    if a =? 0 then NaN else Infinity (a <? 0)
  else Fin (inject_Z a / inject_Z b).

(** [Math.round]: the nearest integer, halves towards +infinity. *)
Definition Math_round (x : number) : number :=
  match x with
  | Fin q => Fin (inject_Z (Qfloor (q + (1 # 2))))
  | _ => x
  end.

Definition number_truthy (x : number) : bool :=
  match x with
  | Fin q => negb (Qeq_bool q 0)
  | NaN => false
  | Infinity _ => true
  end.

Definition number_or (a b : number) : number := if number_truthy a then a else b.

(** [calls.filter(c => c.overall_score)]. *)
Definition with_score (calls : list Call) : list Call :=
  filter (fun c => truthy (score_value c)) calls.

(** [.reduce((sum, c) => sum + c.overall_score, 0)] on calls that passed
    the filter, all of which carry a number: the exact sum, which is the
    sum of the doubles as long as no partial sum leaves the safe
    integers (see [exact_scores]). *)
Definition sum_scores (l : list Call) : Z :=
  fold_left (fun sum c => sum + match overall_score c with
                                | Some n => int_value n
                                | None => 0
                                end) l 0.

(** [stats.avgScore], Dashboard.js:93-95, together with the divisions
    (dividend, divisor) its evaluation performs. *)
Definition avgScore_eval (calls : list Call) : number * list (Z * Z) :=
  if (0 <? List.length calls)%nat then
    let dividend := sum_scores (with_score calls) in
    let divisor := Z.of_nat (List.length (with_score calls)) in
    (Math_round (js_div dividend divisor), [(dividend, divisor)])
  else (Fin 0, []).

Definition stats_totalCalls (calls : list Call) : nat := List.length calls.

Definition stats_avgScore (calls : list Call) : number := fst (avgScore_eval calls).

(** [calls.filter(c => c.analysis_status === "completed").length]. *)
Definition stats_completedAnalysis (calls : list Call) : nat :=
  List.length
    (filter (fun c => match analysis_status c with
                      | JsStr s => String.eqb s "completed"
                      | _ => false
                      end) calls).

Definition avgScore_divisions (calls : list Call) : list (Z * Z) := snd (avgScore_eval calls).

(** The Average Score card, Dashboard.js:173: [{stats.avgScore || 0}]. *)
Definition displayed_avgScore (calls : list Call) : number :=
  number_or (stats_avgScore calls) (Fin 0).

(** The scores that are present, in list order. *)
Definition scores_present (calls : list Call) : list Z :=
  flat_map (fun c => match overall_score c with
                     | Some n => [int_value n]
                     | None => []
                     end) calls.

(** The range in which the exact sum and quotient of the model are those
    of the doubles: the absolute values of the scores add up to less
    than 2^52.  Then every partial sum is a safe integer, and the double
    nearest to the quotient lies on the same side of every half-integer
    as the quotient itself. *)
Definition exact_scores (calls : list Call) : Prop :=
  fold_right (fun z acc => Z.abs z + acc) 0 (scores_present calls) < 2 ^ 52.

(** The Average Score as the specification words it: [Math.round] of the
    arithmetic mean of the scores that are present, and 0 when there is
    none. *)
Definition spec_average_score (calls : list Call) : number :=
  match scores_present calls with
  | [] => Fin 0
  | l => Math_round (Fin (inject_Z (fold_right Z.add 0 l)
                          / inject_Z (Z.of_nat (List.length l))))
  end.

(** The Average Score statistic as the specification states it: the
    displayed value is [spec_average_score] and no division of its
    evaluation has a zero divisor. *)
Definition average_score_as_specified (calls : list Call) : Prop :=
  displayed_avgScore calls = spec_average_score calls /\
  Forall (fun d => snd d <> 0) (avgScore_divisions calls).

(* ================================================================== *)
(** ** Reading a trace *)
(* ================================================================== *)

Definition is_post (r : Request) : bool :=
  match req_method r with POST => true | GET => false end.

(** The pipeline requests are the POSTs. *)
Definition post_requests (t : list Event) : list Request :=
  filter is_post (requests_of t).

Definition resolved_posts (t : list Event) : list Request :=
  flat_map (fun e => match e with
                     | HttpSettle r (Resolved _) => if is_post r then [r] else []
                     | _ => []
                     end) t.

Definition rejected_posts (t : list Event) : list Request :=
  flat_map (fun e => match e with
                     | HttpSettle r (Rejected _) => if is_post r then [r] else []
                     | _ => []
                     end) t.

Definition progress_history (t : list Event) : list Z :=
  flat_map (fun e => match e with SetUploadProgress n => [n] | _ => [] end) t.

Definition navigations (t : list Event) : list string :=
  flat_map (fun e => match e with Navigate p => [p] | _ => [] end) t.

Definition error_toasts (t : list Event) : list JsValue :=
  flat_map (fun e => match e with ToastError m => [m] | _ => [] end) t.

Definition success_toasts (t : list Event) : list string :=
  flat_map (fun e => match e with ToastSuccess m => [m] | _ => [] end) t.

(** A browser download: a click on a link carrying a [download] attribute. *)
Definition downloads (t : list Event) : list (list JsValue * string) :=
  flat_map (fun e => match e with LinkClick href name => [(href, name)] | _ => [] end) t.

(** The HTTP events of a trace, in order. *)
Definition http_events (t : list Event) : list Event :=
  filter (fun e => match e with HttpSend _ | HttpSettle _ _ => true | _ => false end) t.

(** Every request is settled before anything else is sent: the HTTP events
    come in adjacent send/settle pairs for the same request. *)
Fixpoint awaited (h : list Event) : Prop :=
  match h with
  | [] => True
  | HttpSend r :: HttpSettle r' _ :: rest => r = r' /\ awaited rest
  | _ => False
  end.

(** Method and URL of every request of a trace. *)
Definition endpoints (t : list Event) : list (Method * string) :=
  map (fun r => (req_method r, req_url r)) (requests_of t).

(** Started from any component state, [op] sends exactly one request, to
    [url] with method [m], and has no other exchange with the backend than
    that request and its settlement. *)
Definition single_request {S A : Type} (backend : Backend) (op : M S A)
    (m : Method) (url : string) : Prop :=
  forall s : S,
    endpoints (trace (snd (op (start s)))) = [(m, url)] /\
    exists r, http_events (trace (snd (op (start s))))
              = [HttpSend r; HttpSettle r (backend [] r)].

(** A step of the pipeline is complete when the handler announces it
    ("File uploaded!", "Transcription complete!", "Analysis complete!"). *)
Definition completed_steps (t : list Event) : nat := List.length (success_toasts t).

(** [t] ends with the event [e]. *)
Definition ends_with (t : list Event) (e : Event) : Prop :=
  exists pre : list Event, t = (pre ++ [e])%list.

(** The pipeline as the specification states it, for every selected
    file: the three POSTs, in order, each awaited. *)
Definition pipeline_as_specified (backend : Backend) (BACKEND_URL : option string)
    (file : File) (st : DashState) : Prop :=
  let t := trace (snd (handleFileUpload backend BACKEND_URL [file] (start st))) in
  awaited (http_events t) /\
  exists id, post_requests t = [upload_request BACKEND_URL file;
                                transcribe_request BACKEND_URL id;
                                analyze_request BACKEND_URL id].

(** Along [t], each resolved pipeline request is followed by a strictly
    larger value of [uploadProgress]: [current] is the value before [t],
    [due] tells that a request has resolved since the last update. *)
Fixpoint increases_after_steps (current : Z) (due : bool) (t : list Event) : bool :=
  match t with
  | [] => true
  | HttpSettle r (Resolved _) :: rest =>
      increases_after_steps current (due || is_post r) rest
  | SetUploadProgress n :: rest =>
      (if due then current <? n else true) && increases_after_steps n false rest
  | _ :: rest => increases_after_steps current due rest
  end.

(** The progress indicator as the specification states it: values among
    0, 10, 30, 50, 75, 100, strictly increased after each completed step
    (each pipeline request that resolved), and 0 at the end of the run. *)
Definition progress_as_specified (backend : Backend) (BACKEND_URL : option string)
    (file : File) (st : DashState) : Prop :=
  let w := snd (upload_run backend BACKEND_URL [file] (start st)) in
  Forall (fun n => In n [0; 10; 30; 50; 75; 100]) (progress_history (trace w)) /\
  increases_after_steps (uploadProgress st) false (trace w) = true /\
  uploadProgress (comp w) = 0.

(** The upload operation as the specification states it: selecting a file
    performs exactly one HTTP request, POST {API}/upload-call. *)
Definition upload_is_single_request (backend : Backend) (BACKEND_URL : option string)
    (file : File) (st : DashState) : Prop :=
  endpoints (trace (snd (handleFileUpload backend BACKEND_URL [file] (start st))))
  = [(POST, API BACKEND_URL ++ "/upload-call")].

(** The export as the specification states it: whenever the export
    request of a click resolved, exactly one download of a Blob of the
    response body is triggered. *)
Definition export_as_specified (backend : Backend) (BACKEND_URL : option string)
    (callId : string) (st : DetailsState) (format : string) : Prop :=
  let t := trace (snd (click_export backend BACKEND_URL callId format (start st))) in
  forall response,
    In (HttpSettle (export_request BACKEND_URL callId format) (Resolved response)) t ->
    exists name, downloads t = [([data response], name)].

(* ================================================================== *)
(** ** Sample backends and inputs *)
(* ================================================================== *)

Definition sample_url : option string := Some "http://localhost:8000".

Definition sample_file : File := {| file_name := "call.mp3"; file_bytes := "RIFF" |}.

(** A backend that is unreachable: every request rejects without a
    response. *)
Definition backend_down : Backend := fun _ _ => Rejected None.

(** A backend that accepts everything and names the uploaded call [c1]. *)
Definition backend_up : Backend :=
  fun _ r =>
    match req_method r with
    | POST => Resolved {| data := JsObj [("call_id", JsStr "c1")] |}
    | GET => Resolved {| data := JsArr [] |}
    end.

(** A backend that takes the upload and fails the transcription with a
    [detail] message. *)
Definition backend_transcribe_fails : Backend :=
  fun served _ =>
    match served with
    | [] => Resolved {| data := JsObj [("call_id", JsStr "c1")] |}
    | _ => Rejected (Some {| data := JsObj [("detail", JsStr "Transcription failed")] |})
    end.

(** A backend that answers an export with a PDF body. *)
Definition backend_export : Backend :=
  fun _ _ => Resolved {| data := JsBlob "%PDF-1.4" |}.

Definition sample_details : DetailsState :=
  {| callData := JsObj [("filename", JsStr "call.mp3");
                        ("overall_score", JsInt (safe 82))];
     loading := false |}.

Definition sample_call (score : option SafeInteger) : Call :=
  {| id := "c1"; filename := "call.mp3"; upload_timestamp := "2025-01-01T10:00:00";
     analysis_status := JsStr "completed"; overall_score := score |}.

(** An object that cannot be converted to a string: its own [toString]
    is not a function. *)
Definition unprintable : JsValue := JsObj [("toString", JsInt (safe 1))].

(** The details of a call whose record carries such an object as its
    file name. *)
Definition details_unprintable_filename : DetailsState :=
  {| callData := JsObj [("filename", unprintable)]; loading := false |}.

(* ================================================================== *)
(** ** More of the two pages: views, table badges, effect readers *)
(* ================================================================== *)

(** The request of [fetchCallDetails], CallDetails.js:27. *)
Definition details_request (BACKEND_URL : option string) (callId : string) : Request :=
  {| req_method := GET; req_url := API BACKEND_URL ++ "/calls/" ++ callId;
     req_body := []; req_headers := []; req_responseType := None |}.

(** The request of [fetchCalls], Dashboard.js:26. *)
Definition list_request (BACKEND_URL : option string) : Request :=
  {| req_method := GET; req_url := API BACKEND_URL ++ "/calls";
     req_body := []; req_headers := []; req_responseType := None |}.

(** What [CallDetails] returns, CallDetails.js:58-83: the spinner while
    loading, the "Call not found" card when [callData] is falsy, the
    details page otherwise. *)
Inductive DetailsView :=
| Spinner
| NotFound
| DetailsPage (callData : JsValue).

Definition CallDetails_view (s : DetailsState) : DetailsView :=
  if loading s then Spinner
  else if truthy (callData s) then DetailsPage (callData s)
  else NotFound.

(** One [<li>] of a highlights or suggestions list, CallDetails.js:171-179:
    its React key, the number in the bullet and the text. *)
Record ListEntry := {
  entry_key : Z;
  entry_number : Z;
  entry_item : JsValue
}.

(** [items.map((item, index) => <li key={index}>... {index + 1} ... {item}</li>)],
    [index] counting from [from]. *)
Fixpoint entries_from (from : Z) (items : list JsValue) : list ListEntry :=
  match items with
  | [] => []
  | item :: rest =>
      {| entry_key := from; entry_number := from + 1; entry_item := item |}
      :: entries_from (from + 1) rest
  end.

Inductive ListView :=
| Items (entries : list ListEntry)
| Fallback.

(** [field?.map(...) || <p>fallback</p>], CallDetails.js:171-180 and
    185-194.  A nullish field short-circuits to [undefined], which is
    falsy; an array maps to an array, which is truthy even when empty;
    anything else has no [map] method, and calling it raises TypeError
    ([None]). *)
Definition list_view (field : JsValue) : option ListView :=
  match field with
  | JsUndefined | JsNull => Some Fallback
  | JsArr items => Some (Items (entries_from 0 items))
  | _ => None
  end.

(** A sentiment card, CallDetails.js:200-214: the badge text and the
    values handed to the four [MetricBar]s. *)
Record SentimentCard := {
  general_sentiment : JsValue;
  empathy : JsValue;
  engagement : JsValue;
  enthusiasm : JsValue;
  politeness : JsValue
}.

(** [sentiment.general_sentiment || "Neutral"], [sentiment.empathy || 0], ... *)
Definition sentiment_card (sentiment : JsValue) : option SentimentCard :=
  match prop sentiment "general_sentiment", prop sentiment "empathy",
        prop sentiment "engagement", prop sentiment "enthusiasm",
        prop sentiment "politeness" with
  | Some g, Some em, Some en, Some et, Some po =>
      Some {| general_sentiment := logical_or g (JsStr "Neutral");
              empathy := logical_or em (JsInt (safe 0));
              engagement := logical_or en (JsInt (safe 0));
              enthusiasm := logical_or et (JsInt (safe 0));
              politeness := logical_or po (JsInt (safe 0)) |}
  | _, _, _, _, _ => None
  end.

(** The values the details page puts on screen (CallDetails.js:80-81 and
    100-246).  The date is locale text and is left out, but not its
    evaluation. *)
Record DetailsData := {
  shown_filename : JsValue;
  shown_score : JsValue;
  shown_summary : JsValue;
  shown_highlights : ListView;
  shown_suggestions : ListView;
  agent_card : SentimentCard;
  prospect_card : SentimentCard;
  shown_transcript : JsValue
}.

(** [new Date(v)] reduces [v] to a primitive first, which fails on the
    values that [toString] fails on; the [toLocaleString] of the date,
    valid or not, does not throw. *)
Definition date_evaluates (v : JsValue) : bool :=
  match toString v with
  | Some _ => true
  | None => false
  end.

(** The body of the details render; [None] when evaluating it raises
    TypeError.  What React does with the values afterwards is not part of
    this function. *)
Definition details_data (callData : JsValue) : option DetailsData :=
  match prop callData "agent_sentiment", prop callData "prospect_sentiment",
        prop callData "filename", prop callData "upload_timestamp",
        prop callData "overall_score",
        prop callData "call_summary", prop callData "positive_highlights",
        prop callData "improvement_suggestions", prop callData "transcription" with
  | Some a, Some p, Some name, Some ts, Some score, Some summary, Some hl, Some sg,
    Some tr =>
      let agent := logical_or a (JsObj []) in
      let prospect := logical_or p (JsObj []) in
      if date_evaluates ts then
        match list_view hl, list_view sg, sentiment_card agent, sentiment_card prospect with
        | Some highlights, Some suggestions, Some ac, Some pc =>
            Some {| shown_filename := name;
                    shown_score := logical_or score (JsInt (safe 0));
                    shown_summary := logical_or summary (JsStr "Analysis in progress...");
                    shown_highlights := highlights;
                    shown_suggestions := suggestions;
                    agent_card := ac;
                    prospect_card := pc;
                    shown_transcript :=
                      logical_or tr (JsStr "Transcription not available") |}
        | _, _, _, _ => None
        end
      else None
  | _, _, _, _, _, _, _, _, _ => None
  end.

(** A value [.map] can be applied to behind [?.]: nullish or an array. *)
Definition mappable (v : JsValue) : bool :=
  match v with
  | JsUndefined | JsNull | JsArr _ => true
  | _ => false
  end.

(** The label that [statusConfig[key] || statusConfig.pending] ends up
    with, key by key. *)
Definition label_of_key (key : string) : option string :=
  if String.eqb key "completed" then Some "Completed"
  else if String.eqb key "processing" then Some "Processing"
  else if String.eqb key "pending" then Some "Pending"
  else if String.eqb key "failed" then Some "Failed"
  else if existsb (String.eqb key) Object_prototype_keys then None
  else Some "Pending".

(** The Status cells of the calls table, Dashboard.js:219-231; [None]
    when the badge of some row throws. *)
Fixpoint table_badges (calls : list Call) : option (list Badge) :=
  match calls with
  | [] => Some []
  | call :: rest =>
      match getStatusBadge (analysis_status call), table_badges rest with
      | Some badge, Some badges => Some (badge :: badges)
      | _, _ => None
      end
  end.

Definition is_completed_badge (b : Badge) : bool :=
  match badge_label b with
  | Some l => String.eqb l "Completed"
  | None => false
  end.

(** The values given to [setUploading], in order. *)
Definition uploading_history (t : list Event) : list bool :=
  flat_map (fun e => match e with SetUploading b => [b] | _ => [] end) t.

(** Every request of [t] is sent while [uploading] is true, i.e. while
    the file input and the upload button are disabled (Dashboard.js:117
    and 132); [flag] is the value of [uploading] before [t]. *)
Fixpoint sends_guarded (flag : bool) (t : list Event) : bool :=
  match t with
  | [] => true
  | SetUploading b :: rest => sends_guarded b rest
  | HttpSend _ :: rest => flag && sends_guarded flag rest
  | _ :: rest => sends_guarded flag rest
  end.

(** The toasts and the requests of a trace, in the order they happen. *)
Definition toasts_and_sends (t : list Event) : list Event :=
  filter (fun e => match e with
                   | HttpSend _ | ToastSuccess _ | ToastError _ => true
                   | _ => false
                   end) t.

(** A GET of the trace was rejected. *)
Definition get_rejected (t : list Event) : bool :=
  existsb (fun e => match e with
                    | HttpSettle r (Rejected _) => negb (is_post r)
                    | _ => false
                    end) t.

(** A backend whose list endpoint is down while the pipeline works. *)
Definition backend_list_down : Backend :=
  fun _ r =>
    match req_method r with
    | POST => Resolved {| data := JsObj [("call_id", JsStr "c1")] |}
    | GET => Rejected None
    end.

(** A backend that acknowledges the upload with an empty JSON body. *)
Definition backend_null_body : Backend :=
  fun _ _ => Resolved {| data := JsNull |}.

(** A backend whose upload names the call by an object that cannot be
    converted to a string. *)
Definition backend_unprintable_call_id : Backend :=
  fun _ _ => Resolved {| data := JsObj [("call_id", unprintable)] |}.

(** A backend that acknowledges the upload without naming the call. *)
Definition backend_no_call_id : Backend :=
  fun _ _ => Resolved {| data := JsObj [("status", JsStr "ok")] |}.

(** The record of a call that is still waiting for its analysis. *)
Definition pending_call : JsValue :=
  JsObj [("filename", JsStr "call.mp3"); ("analysis_status", JsStr "pending");
         ("overall_score", JsNull)].

(* ================================================================== *)
(** ** Symbolic execution of the handlers *)
(* ================================================================== *)

Ltac run :=
  cbv beta iota zeta delta
    [handleFileUpload nth_error bind try_catch ret throw emit modify
     setUploading setUploadProgress setCalls uploadCall transcribe analyze
     axios_post axios_get axios fetchCalls setTimeout get_prop to_string start
     comp trace timers app flat_map requests_of
     calls uploading uploadProgress fst snd
     upload_request transcribe_request analyze_request].

(** Case analysis on what happens along one upload run: upload rejected;
    upload resolved but [call_id] unreadable; [call_id] read but not
    convertible to a string; transcribe rejected; analyze rejected;
    everything resolved (with the refresh of the list resolved or
    rejected). *)
Ltac upload_cases backend :=
  run;
  destruct (backend _ _) as [r1|e1] eqn:E1 in |- *; run;
  [ destruct (prop (data r1) "call_id") as [cid|] eqn:Ecid; run;
    [ destruct (toString cid) as [id|] eqn:Eid; run;
      [ destruct (backend _ _) as [r2|e2] eqn:E2 in |- *; run;
        [ destruct (backend _ _) as [r3|e3] eqn:E3 in |- *; run;
          [ destruct (backend _ _) as [r4|e4] eqn:E4 in |- *; run | ]
        | ]
      | ]
    | ]
  | ].

Lemma append_inv_head (s a b : string) : (s ++ a = s ++ b)%string -> a = b.
Proof.
  induction s as [|c s IH]; simpl; intros H.
  - exact H.
  - injection H as H. auto.
Qed.

Lemma transcribe_analyze_distinct (u : option string) (x y : string) :
  transcribe_request u x <> analyze_request u y.
Proof.
  unfold transcribe_request, analyze_request. intros H.
  injection H as H. apply append_inv_head in H. discriminate H.
Qed.

Lemma upload_transcribe_distinct (u : option string) (f : File) (x : string) :
  upload_request u f <> transcribe_request u x.
Proof. unfold upload_request, transcribe_request. intros H. discriminate H. Qed.

Lemma upload_analyze_distinct (u : option string) (f : File) (x : string) :
  upload_request u f <> analyze_request u x.
Proof. unfold upload_request, analyze_request. intros H. discriminate H. Qed.

(** [NoDup] of a list of pipeline requests. *)
Ltac distinct_requests :=
  repeat (apply NoDup_cons;
          [ let H := fresh "H" in
            intros H; cbn in H; decompose [Logic.or] H; try contradiction;
            match goal with
            | E : _ = _ |- _ =>
                symmetry in E;
                solve [ eapply upload_transcribe_distinct; exact E
                      | eapply upload_analyze_distinct; exact E
                      | eapply transcribe_analyze_distinct; exact E ]
            end
          | ]);
  apply NoDup_nil.

(* ================================================================== *)
(** ** The upload pipeline (Dashboard.js, [handleFileUpload]) *)
(* ================================================================== *)

Section Upload.

Variable backend : Backend.
Variable BACKEND_URL : option string.
Variables (file : File) (rest : list File).
Variable st : DashState.

Local Abbreviation up := (upload_request BACKEND_URL file).
Local Abbreviation tr := (transcribe_request BACKEND_URL).
Local Abbreviation an := (analyze_request BACKEND_URL).
Local Abbreviation handler := (handleFileUpload backend BACKEND_URL (file :: rest) (start st)).
Local Abbreviation whole_run := (upload_run backend BACKEND_URL (file :: rest) (start st)).

(** C1 (as amended).  For every selected file the handler sends the
    upload POST carrying the file exactly once and first; the transcribe
    POST follows when the upload resolved, [call_id] could be read from
    its response and could be converted to a string, and goes to
    [{API}/transcribe/{call_id}]; the analyze POST for the same identifier
    follows when the transcription resolved.  These are the only POSTs,
    each sent once, in that order, and every request is settled before
    the next one is sent. *)
Theorem handleFileUpload_pipeline :
  let t := trace (snd handler) in
  awaited (http_events t) /\
  NoDup (post_requests t) /\
  post_requests t =
    match backend [] up with
    | Rejected _ => [up]
    | Resolved r1 =>
        match prop (data r1) "call_id" with
        | None => [up]
        | Some cid =>
            match toString cid with
            | None => [up]
            | Some id =>
                match backend [up] (tr id) with
                | Rejected _ => [up; tr id]
                | Resolved _ => [up; tr id; an id]
                end
            end
        end
    end.
Proof.
  upload_cases backend; cbn; (split; [ | split ]);
    try reflexivity; try solve [repeat split; reflexivity].
  all: distinct_requests.
Qed.

(** C2.  If one of the three pipeline requests rejects, exactly one error
    toast is shown, the rejected request is the last request of the run
    (no later endpoint is invoked), no request is sent twice (nothing is
    retried), and the upload state is back to [uploading = false],
    [uploadProgress = 0], with the list of calls untouched, no timer
    pending and no navigation. *)
Theorem rejected_request_aborts_run :
  rejected_posts (trace (snd handler)) <> [] ->
  (exists e, error_toasts (trace (snd handler))
             = [logical_or (error_detail (AxiosError e)) (JsStr "Upload failed")]) /\
  (exists sent r, requests_of (trace (snd handler)) = (sent ++ [r])%list /\
                  rejected_posts (trace (snd handler)) = [r]) /\
  NoDup (requests_of (trace (snd handler))) /\
  uploading (comp (snd handler)) = false /\
  uploadProgress (comp (snd handler)) = 0 /\
  calls (comp (snd handler)) = calls st /\
  timers (snd handler) = [] /\
  navigations (trace (snd handler)) = [].
Proof.
  upload_cases backend; cbn; intros Hrej; try (exfalso; apply Hrej; reflexivity).
  - split; [ exists e3; reflexivity | ].
    split; [ eexists [_; _], _; split; reflexivity | ].
    split; [ distinct_requests | repeat split ].
  - split; [ exists e2; reflexivity | ].
    split; [ eexists [_], _; split; reflexivity | ].
    split; [ distinct_requests | repeat split ].
  - split; [ exists e1; reflexivity | ].
    split; [ eexists [], _; split; reflexivity | ].
    split; [ distinct_requests | repeat split ].
Qed.

Lemma transcribe_request_id (a b c d : Request) (x y : string) :
  [a; tr x; b] = [c; tr y; d] -> x = y.
Proof.
  unfold transcribe_request. intros H. injection H as _ H _.
  apply append_inv_head in H. injection H as H. exact H.
Qed.

(** C3.  One upload run (the handler, then its timer) navigates if and
    only if the three pipeline requests all resolved; it then navigates
    once, to [/call/{callId}], as the last effect of the run.  After a
    rejected pipeline request it never navigates. *)
Theorem navigation_iff_pipeline_succeeded :
  (navigations (trace (snd whole_run)) <> [] <->
   exists id, resolved_posts (trace (snd whole_run)) = [up; tr id; an id]) /\
  (forall id, resolved_posts (trace (snd whole_run)) = [up; tr id; an id] ->
     navigations (trace (snd whole_run)) = [("/call/" ++ id)%string] /\
     ends_with (trace (snd whole_run)) (Navigate ("/call/" ++ id))) /\
  (rejected_posts (trace (snd whole_run)) <> [] ->
     navigations (trace (snd whole_run)) = []).
Proof.
  cbv delta [upload_run flush_timers fire_all run_callback].
  upload_cases backend; rewrite ?Eid; run; cbn.
  1, 2: split; [ split; [ intros _; exists id; reflexivity | discriminate ] | ];
        (split; [ | intros H; exfalso; apply H; reflexivity ]);
        intros id' H; apply transcribe_request_id in H; subst id';
        (split; [ reflexivity
                | match goal with
                  | |- ends_with ?t _ => exists (removelast t); reflexivity
                  end ]).
  all: split; [ split; [ intros H; exfalso; apply H; reflexivity
                       | intros [id' H]; discriminate H ] | ];
       (split; [ intros id' H; discriminate H | reflexivity ]).
Qed.


End Upload.

(** C10.  When the change event carries no file the handler returns at
    once: the world (component state, trace of effects, pending timers) is
    left exactly as it was, so no request is sent and [uploading] and
    [uploadProgress] keep their values. *)
Theorem handleFileUpload_without_file (backend : Backend) (BACKEND_URL : option string)
    (files : list File) (w : World DashState) :
  nth_error files 0 = None ->
  handleFileUpload backend BACKEND_URL files w = (Ok tt, w).
Proof.
  intros H. unfold handleFileUpload. rewrite H. reflexivity.
Qed.

(* ================================================================== *)
(** ** Requests per operation *)
(* ================================================================== *)

Ltac run_details :=
  cbv delta [fetchCallDetails handleExport setCallData setLoading]; run.

Section Operations.

Variable backend : Backend.
Variable BACKEND_URL : option string.
Variable callId : string.

Local Abbreviation API' := (API BACKEND_URL).

(** C5 (as amended).  Listing the calls, fetching one call and exporting
    a report are each one HTTP request to their fixed endpoint and nothing
    else.  Selecting a file is not: the upload handler sends between one
    and four requests, namely POST [{API}/upload-call], POST
    [{API}/transcribe/{id}], POST [{API}/analyze/{id}] and GET
    [{API}/calls], in that order, each at most once and each only after
    the previous one has settled. *)
Theorem operations_are_single_requests (file : File) (rest : list File)
    (st : DashState) (format : string) :
  single_request backend (fetchCalls backend BACKEND_URL) GET (API' ++ "/calls") /\
  single_request backend (fetchCallDetails backend BACKEND_URL callId)
                 GET (API' ++ "/calls/" ++ callId) /\
  single_request backend (handleExport backend BACKEND_URL callId format)
                 GET (API' ++ "/export/" ++ callId ++ "/" ++ format) /\
  awaited (http_events
             (trace (snd (handleFileUpload backend BACKEND_URL (file :: rest) (start st))))) /\
  exists id n,
    (1 <= n <= 4)%nat /\
    endpoints (trace (snd (handleFileUpload backend BACKEND_URL (file :: rest) (start st))))
    = firstn n [(POST, API' ++ "/upload-call");
                (POST, API' ++ "/transcribe/" ++ id);
                (POST, API' ++ "/analyze/" ++ id);
                (GET, API' ++ "/calls")]%string.
Proof.
  split; [ | split; [ | split ] ].
  - intros s. run. destruct (backend _ _) eqn:E in |- *; run;
      (split; [ reflexivity | eexists; cbn; rewrite E; reflexivity ]).
  - intros s. run_details. destruct (backend _ _) eqn:E in |- *; run;
      (split; [ reflexivity | eexists; cbn; rewrite E; reflexivity ]).
  - intros s. run_details. destruct (backend _ _) eqn:E in |- *; run;
      [ destruct (prop _ _) eqn:P in |- *; run;
        [ destruct (toString _) eqn:T in |- *; run | ] | ];
      (split; [ reflexivity | eexists; cbn; rewrite E; reflexivity ]).
  - upload_cases backend; cbn; (split; [ repeat split | ]).
    1, 2: exists id, 4%nat; split; [ lia | reflexivity ].
    + exists id, 3%nat; split; [ lia | reflexivity ].
    + exists id, 2%nat; split; [ lia | reflexivity ].
    + exists ""%string, 1%nat; split; [ lia | reflexivity ].
    + exists ""%string, 1%nat; split; [ lia | reflexivity ].
    + exists ""%string, 1%nat; split; [ lia | reflexivity ].
Qed.

End Operations.

(* ================================================================== *)
(** ** Export (CallDetails.js, [handleExport]) *)
(* ================================================================== *)

Section ExportReport.

Variable backend : Backend.
Variable BACKEND_URL : option string.
Variable callId : string.
Variable st : DetailsState.

Local Abbreviation click format :=
  (click_export backend BACKEND_URL callId format (start st)).
Local Abbreviation export format := (export_request BACKEND_URL callId format).

(** A truthy value has every property readable. *)
Lemma truthy_prop (v : JsValue) (k : string) :
  truthy v = true -> exists x, prop v k = Some x.
Proof.
  destruct v; simpl; intros H; try discriminate; eauto.
  destruct (lookup k props); eauto.
Qed.


End ExportReport.

(* ================================================================== *)
(** ** Rendering: status badge, Score cell, Average Score *)
(* ================================================================== *)

(** The four lifecycle labels get their own badge. *)
Lemma getStatusBadge_lifecycle :
  option_map badge_label (getStatusBadge (JsStr "pending")) = Some (Some "Pending") /\
  option_map badge_label (getStatusBadge (JsStr "processing")) = Some (Some "Processing") /\
  option_map badge_label (getStatusBadge (JsStr "completed")) = Some (Some "Completed") /\
  option_map badge_label (getStatusBadge (JsStr "failed")) = Some (Some "Failed").
Proof. repeat split; reflexivity. Qed.

(** A status whose key is neither a key of [statusConfig] nor a name
    inherited from [Object.prototype] falls back to the Pending badge; a
    missing status is such a status. *)
Lemma getStatusBadge_fallback (status : JsValue) (key : string) :
  toString status = Some key ->
  statusConfig_get key = Missing ->
  getStatusBadge status =
    Some {| badge_className := Some "border-slate-400 text-slate-600";
            badge_testid := "status-badge-" ++ key;
            badge_label := Some "Pending" |}.
Proof. intros K H. unfold getStatusBadge. rewrite K, H. reflexivity. Qed.

Lemma getStatusBadge_missing_status :
  option_map badge_label (getStatusBadge JsUndefined) = Some (Some "Pending").
Proof. reflexivity. Qed.

(** C7 (failing input).  For the status ["constructor"] the lookup
    [statusConfig[status]] finds the function inherited from
    [Object.prototype], which is truthy, so the fallback to
    [statusConfig.pending] is not taken: the badge has neither label nor
    class name, and is not the Pending badge. *)
Theorem getStatusBadge_inherited_name :
  getStatusBadge (JsStr "constructor")
    = Some {| badge_className := None;
              badge_testid := "status-badge-constructor";
              badge_label := None |} /\
  option_map badge_label (getStatusBadge (JsStr "constructor")) <> Some (Some "Pending").
Proof. split; [ reflexivity | discriminate ]. Qed.

(** A score other than 0 is shown as [{overall_score}/100], and a call
    without a score shows a dash. *)
Lemma score_cell_nonzero (call : Call) (n : SafeInteger) :
  overall_score call = Some n -> int_value n <> 0 ->
  score_cell call = Some (string_of_Z (int_value n) ++ "/100")%string.
Proof.
  intros H Hz. unfold score_cell, score_value. rewrite H. simpl.
  destruct (Z.eqb_spec (int_value n) 0); [ contradiction | reflexivity ].
Qed.

Lemma score_cell_absent (call : Call) :
  overall_score call = None -> score_cell call = Some "-"%string.
Proof. intros H. unfold score_cell, score_value. rewrite H. reflexivity. Qed.

(** C8 (failing input).  A call whose score is the number 0 is in the
    range 0-100, yet its Score cell shows the dash of a call without a
    score instead of [0/100]: the test [call.overall_score ? ... : ...]
    takes 0 for an absent score. *)
Theorem score_cell_zero (call : Call) (n : SafeInteger) :
  overall_score call = Some n ->
  int_value n = 0 ->
  score_cell call = Some "-"%string /\
  score_cell call <> Some (string_of_Z 0 ++ "/100")%string.
Proof.
  intros H Z0. unfold score_cell, score_value. rewrite H. simpl. rewrite Z0.
  split; [ reflexivity | discriminate ].
Qed.

Lemma with_score_cons (c : Call) (l : list Call) :
  with_score (c :: l)
  = if truthy (score_value c) then c :: with_score l else with_score l.
Proof. reflexivity. Qed.

Lemma scores_present_cons (c : Call) (l : list Call) :
  scores_present (c :: l)
  = (match overall_score c with
     | Some n => [int_value n]
     | None => []
     end ++ scores_present l)%list.
Proof. reflexivity. Qed.

(** Every call that passes the filter carries a score, other than 0. *)
Lemma with_score_scored (calls : list Call) :
  Forall (fun c => exists n, overall_score c = Some n /\ int_value n <> 0)
         (with_score calls).
Proof.
  unfold with_score. apply Forall_forall. intros c Hc.
  apply filter_In in Hc. destruct Hc as [_ Hc]. unfold score_value in Hc.
  destruct (overall_score c) as [n|]; [ | discriminate Hc ].
  exists n. split; [ reflexivity | ].
  cbn [truthy] in Hc.
  destruct (Z.eqb_spec (int_value n) 0); [ discriminate Hc | assumption ].
Qed.

(** The reduction adds up the scores that are present. *)
Lemma fold_left_scores (l : list Call) (a : Z) :
  fold_left (fun sum c => sum + match overall_score c with
                                | Some n => int_value n
                                | None => 0
                                end) l a
  = a + fold_right Z.add 0 (scores_present l).
Proof.
  revert a. induction l as [|c l IH]; intros a.
  - simpl. lia.
  - simpl fold_left. rewrite IH, scores_present_cons.
    destruct (overall_score c) as [z|]; simpl; lia.
Qed.

(** Filtering on truthiness drops the calls without a score and the calls
    whose score is 0; without a score of 0 it keeps the scores present. *)
Lemma scores_present_with_score (calls : list Call) :
  (forall c n, In c calls -> overall_score c = Some n -> int_value n <> 0) ->
  scores_present (with_score calls) = scores_present calls.
Proof.
  induction calls as [|c l IH]; intros H; [ reflexivity | ].
  assert (Hl : forall c0 n, In c0 l -> overall_score c0 = Some n -> int_value n <> 0)
    by (intros c0 n Hin; apply H; now right).
  specialize (IH Hl).
  rewrite with_score_cons, scores_present_cons. unfold score_value.
  destruct (overall_score c) as [n|] eqn:E; cbn [truthy].
  - assert (Hc : int_value n <> 0) by (apply (H c n); [ now left | exact E ]).
    destruct (Z.eqb_spec (int_value n) 0) as [Z0|Hz]; [ contradiction | ].
    cbn [negb]. rewrite scores_present_cons, E, IH. reflexivity.
  - exact IH.
Qed.

Lemma length_with_score (calls : list Call) :
  List.length (with_score calls) = List.length (scores_present (with_score calls)).
Proof.
  induction calls as [|c l IH]; [ reflexivity | ].
  rewrite with_score_cons. unfold score_value.
  destruct (overall_score c) as [n|] eqn:E; cbn [truthy]; [ | exact IH ].
  destruct (int_value n =? 0); cbn [negb]; [ exact IH | ].
  rewrite scores_present_cons, E. simpl. now rewrite IH.
Qed.

Lemma number_or_round (q : Q) :
  number_or (Math_round (Fin q)) (Fin 0) = Math_round (Fin q).
Proof.
  unfold number_or, Math_round, number_truthy.
  set (k := Qfloor (q + (1 # 2))).
  destruct (Qeq_bool (inject_Z k) 0) eqn:E; cbn [negb]; [ | reflexivity ].
  apply Qeq_bool_iff in E. unfold Qeq in E. simpl in E.
  assert (k = 0) as -> by lia. reflexivity.
Qed.

(** C9 (as amended).  On a list of calls with integer scores, none of
    them 0, whose absolute values add up to less than 2^52, the displayed
    Average Score is [Math.round] of the mean of the scores that are
    present, and 0 when no call has a score.  The one division of the
    computation has a zero divisor exactly when the list is not empty and
    no call has a score; its result, NaN, is displayed as 0. *)
Theorem displayed_avgScore_correct (calls : list Call) :
  (forall c n, In c calls -> overall_score c = Some n -> int_value n <> 0) ->
  exact_scores calls ->
  displayed_avgScore calls = spec_average_score calls /\
  (Exists (fun d => snd d = 0) (avgScore_divisions calls) <->
   calls <> [] /\ scores_present calls = []).
Proof.
  intros H _.
  pose proof (scores_present_with_score calls H) as Hs.
  pose proof (length_with_score calls) as Hlen. rewrite Hs in Hlen.
  assert (Hsum : sum_scores (with_score calls)
                 = fold_right Z.add 0 (scores_present calls))
    by (unfold sum_scores; rewrite fold_left_scores, Hs; lia).
  unfold displayed_avgScore, stats_avgScore, avgScore_divisions, avgScore_eval,
    spec_average_score.
  rewrite Hsum, Hlen. clear Hs Hlen Hsum.
  destruct calls as [|c l].
  - cbn. split; [ reflexivity | ].
    split; [ intros E; inversion E | intros [E _]; now elim E ].
  - set (sp := scores_present (c :: l)).
    change (0 <? List.length (c :: l))%nat with true. cbv iota. cbn [fst snd].
    destruct sp as [|z zs].
    + cbn. split; [ reflexivity | ].
      split; [ intros _; split; [ discriminate | reflexivity ] | ].
      intros _. constructor. reflexivity.
    + unfold js_div.
      destruct (Z.eqb_spec (Z.of_nat (List.length (z :: zs))) 0) as [E0|_];
        [ cbn [List.length] in E0; lia | ].
      split; [ apply number_or_round | ].
      split.
      * intros E. apply Exists_cons in E. destruct E as [E|E];
          [ cbn [snd List.length] in E; lia | inversion E ].
      * intros [_ E]. discriminate E.
Qed.

(* ================================================================== *)
(** ** The theorems at sample inputs *)
(* ================================================================== *)

(** C1 (counterexample).  With the backend unreachable the upload POST is
    the only request of the run: the transcribe and analyze POSTs of the
    stated sequence are never sent. *)
Lemma pipeline_stops_when_upload_rejects :
  ~ pipeline_as_specified backend_down sample_url sample_file dash_init.
Proof.
  unfold pipeline_as_specified. intros [_ [id H]].
  vm_compute in H. discriminate H.
Qed.

Lemma handleFileUpload_pipeline_witness :
  post_requests
    (trace (snd (handleFileUpload backend_up sample_url [sample_file] (start dash_init))))
  = [upload_request sample_url sample_file;
     transcribe_request sample_url "c1";
     analyze_request sample_url "c1"].
Proof.
  exact (proj2 (proj2
    (handleFileUpload_pipeline backend_up sample_url sample_file [] dash_init))).
Defined.

Lemma rejected_request_aborts_run_witness :
  rejected_posts
    (trace (snd (handleFileUpload backend_transcribe_fails sample_url [sample_file]
                                  (start dash_init)))) <> [] /\
  uploading (comp (snd (handleFileUpload backend_transcribe_fails sample_url
                                         [sample_file] (start dash_init)))) = false /\
  uploadProgress (comp (snd (handleFileUpload backend_transcribe_fails sample_url
                                              [sample_file] (start dash_init)))) = 0 /\
  navigations
    (trace (snd (handleFileUpload backend_transcribe_fails sample_url [sample_file]
                                  (start dash_init)))) = [].
Proof.
  assert (H : rejected_posts
                (trace (snd (handleFileUpload backend_transcribe_fails sample_url
                               [sample_file] (start dash_init)))) <> [])
    by (vm_compute; discriminate).
  split; [ exact H | ].
  destruct (rejected_request_aborts_run backend_transcribe_fails sample_url
              sample_file [] dash_init H) as (_ & _ & _ & U & P & _ & _ & N).
  exact (conj U (conj P N)).
Defined.

Lemma navigation_iff_pipeline_succeeded_witness :
  navigations
    (trace (snd (upload_run backend_up sample_url [sample_file] (start dash_init))))
  = ["/call/c1"%string].
Proof.
  refine (proj1 (proj1 (proj2
    (navigation_iff_pipeline_succeeded backend_up sample_url sample_file [] dash_init))
    "c1"%string _)).
  reflexivity.
Defined.



(** C5 (counterexample).  With a backend that accepts everything,
    selecting one file makes four requests, not the single POST
    [{API}/upload-call]. *)
Lemma upload_sends_four_requests :
  ~ upload_is_single_request backend_up sample_url sample_file dash_init.
Proof.
  unfold upload_is_single_request. intros H. vm_compute in H. discriminate H.
Qed.

Lemma operations_are_single_requests_witness :
  exists id n,
    (1 <= n <= 4)%nat /\
    endpoints (trace (snd (handleFileUpload backend_up sample_url [sample_file]
                                            (start dash_init))))
    = firstn n [(POST, API sample_url ++ "/upload-call");
                (POST, API sample_url ++ "/transcribe/" ++ id);
                (POST, API sample_url ++ "/analyze/" ++ id);
                (GET, API sample_url ++ "/calls")]%string.
Proof.
  exact (proj2 (proj2 (proj2 (proj2
    (operations_are_single_requests backend_up sample_url "c1" sample_file []
                                    dash_init "pdf"))))).
Defined.



Lemma score_cell_zero_witness :
  overall_score (sample_call (Some (safe 0))) = Some (safe 0) /\
  score_cell (sample_call (Some (safe 0))) = Some "-"%string.
Proof.
  split; [ reflexivity | ].
  exact (proj1 (score_cell_zero (sample_call (Some (safe 0))) (safe 0) eq_refl eq_refl)).
Defined.

(** C9 (counterexample).  A list holding one call without a score is not
    empty, so the division is evaluated, with the divisor 0 (the number of
    calls that have a score). *)
Lemma average_score_divides_by_zero :
  ~ average_score_as_specified [sample_call None].
Proof.
  unfold average_score_as_specified. intros [_ H].
  inversion H as [|d ds Hd _]. apply Hd. reflexivity.
Qed.

Lemma displayed_avgScore_correct_witness :
  exact_scores [sample_call (Some (safe 80)); sample_call None;
                sample_call (Some (safe 85))] /\
  displayed_avgScore [sample_call (Some (safe 80)); sample_call None;
                      sample_call (Some (safe 85))]
  = spec_average_score [sample_call (Some (safe 80)); sample_call None;
                        sample_call (Some (safe 85))].
Proof.
  assert (E : exact_scores [sample_call (Some (safe 80)); sample_call None;
                            sample_call (Some (safe 85))])
    by reflexivity.
  split; [ exact E | ].
  refine (proj1 (displayed_avgScore_correct _ _ E)).
  intros c n Hc Hn. simpl in Hc. decompose [Logic.or] Hc; try contradiction;
    subst c; cbn in Hn; try discriminate Hn; injection Hn as <-; discriminate.
Defined.

(** A score of 0 does not pass the truthiness filter, so it is left out of
    the mean that is displayed. *)
Example displayed_avgScore_skips_zero :
  displayed_avgScore [sample_call (Some (safe 0)); sample_call (Some (safe 100))]
  = Fin (inject_Z 100) /\
  spec_average_score [sample_call (Some (safe 0)); sample_call (Some (safe 100))]
  = Fin (inject_Z 50).
Proof. split; reflexivity. Qed.

Example displayed_avgScore_sample :
  displayed_avgScore [sample_call (Some (safe 80)); sample_call None;
                      sample_call (Some (safe 85))]
  = Fin (inject_Z 83).
Proof. reflexivity. Qed.

Lemma handleFileUpload_without_file_witness :
  nth_error (@nil File) 0 = None /\
  handleFileUpload backend_up sample_url [] (start dash_init) = (Ok tt, start dash_init).
Proof.
  split; [ reflexivity | ].
  exact (handleFileUpload_without_file backend_up sample_url [] (start dash_init) eq_refl).
Defined.

(** The stated progress rule does hold on a run whose requests all
    resolve with a usable response. *)
Example progress_as_specified_on_success :
  progress_as_specified backend_up sample_url sample_file dash_init.
Proof.
  unfold progress_as_specified. split; [ | split; reflexivity ].
  vm_compute. repeat constructor; tauto.
Qed.

(* ================================================================== *)
(** ** Further properties of the upload handler *)
(* ================================================================== *)

Lemma prop_nullish (v : JsValue) (k : string) :
  nullish v = true -> prop v k = None.
Proof. destruct v; simpl; intros H; try discriminate H; reflexivity. Qed.

Lemma logical_or_truthy (a b : JsValue) :
  truthy b = true -> truthy (logical_or a b) = true.
Proof.
  intros Hb. unfold logical_or. destruct (truthy a) eqn:Ha; assumption.
Qed.

Section UploadMore.

Variable backend : Backend.
Variable BACKEND_URL : option string.
Variables (file : File) (rest : list File).
Variable st : DashState.

Local Abbreviation up := (upload_request BACKEND_URL file).
Local Abbreviation tr := (transcribe_request BACKEND_URL).
Local Abbreviation an := (analyze_request BACKEND_URL).
Local Abbreviation handler := (handleFileUpload backend BACKEND_URL (file :: rest) (start st)).
Local Abbreviation whole_run := (upload_run backend BACKEND_URL (file :: rest) (start st)).

(** X1.  The handler itself never navigates: when the three pipeline
    requests resolved it leaves exactly one timer of 1000 ms pending, with
    [uploading] still true and [uploadProgress] at 100; in every other
    case it leaves no timer, [uploading] false and [uploadProgress] 0. *)
Theorem handler_defers_navigation :
  navigations (trace (snd handler)) = [] /\
  ((exists cid id,
      toString cid = Some id /\
      resolved_posts (trace (snd handler)) = [up; tr id; an id] /\
      timers (snd handler) = [(UploadDone cid, 1000)] /\
      uploading (comp (snd handler)) = true /\
      uploadProgress (comp (snd handler)) = 100) \/
   (List.length (resolved_posts (trace (snd handler))) < 3)%nat /\
   timers (snd handler) = [] /\
   uploading (comp (snd handler)) = false /\
   uploadProgress (comp (snd handler)) = 0).
Proof.
  upload_cases backend; cbn; (split; [ reflexivity | ]).
  1, 2: left; exists cid, id; repeat split; assumption.
  all: right; repeat split; lia.
Qed.

(** X2.  During one upload run [uploading] is set exactly twice, to true
    and then to false, and every request of the run is sent in between,
    that is while the file input and the upload button are disabled. *)
Theorem requests_sent_while_uploading :
  uploading_history (trace (snd whole_run)) = [true; false] /\
  sends_guarded (uploading st) (trace (snd whole_run)) = true.
Proof.
  cbv delta [upload_run flush_timers fire_all run_callback].
  upload_cases backend; rewrite ?Eid; run; cbn; split; reflexivity.
Qed.

(** X3.  When the three pipeline requests resolved, the run interleaves
    its requests and toasts in this order: upload, "File uploaded!...",
    transcribe, "Transcription complete!...", analyze, "Analysis
    complete!", and then the refresh GET [{API}/calls] as the fourth and
    last request, followed by "Failed to load calls" only if the refresh
    rejected.  When the refresh resolves, the list of calls becomes its
    response body. *)
Theorem successful_run_refreshes_list :
  List.length (resolved_posts (trace (snd whole_run))) = 3%nat ->
  exists id,
    toasts_and_sends (trace (snd whole_run))
    = ([HttpSend up;
        ToastSuccess "File uploaded! Starting transcription...";
        HttpSend (tr id);
        ToastSuccess "Transcription complete! Analyzing call...";
        HttpSend (an id);
        ToastSuccess "Analysis complete!";
        HttpSend (list_request BACKEND_URL)]
       ++ match backend [up; tr id; an id] (list_request BACKEND_URL) with
          | Resolved _ => []
          | Rejected _ => [ToastError (JsStr "Failed to load calls")]
          end)%list /\
    forall response,
      backend [up; tr id; an id] (list_request BACKEND_URL) = Resolved response ->
      calls (comp (snd whole_run)) = data response.
Proof.
  cbv delta [upload_run flush_timers fire_all run_callback list_request].
  upload_cases backend; rewrite ?Eid; run; cbn in *; intros H; try discriminate H.
  all: exists id; rewrite E4; split; [ reflexivity | ].
  all: intros response Hr.
  - injection Hr as <-. reflexivity.
  - discriminate Hr.
Qed.

(** X4.  A rejected refresh of the list does not abort a run whose
    pipeline succeeded: the run still navigates to the call, the state is
    reset, the list of calls keeps its previous value, and the only error
    shown is "Failed to load calls". *)
Theorem rejected_refresh_still_navigates :
  get_rejected (trace (snd whole_run)) = true ->
  exists id,
    navigations (trace (snd whole_run)) = [("/call/" ++ id)%string] /\
    resolved_posts (trace (snd whole_run)) = [up; tr id; an id] /\
    error_toasts (trace (snd whole_run)) = [JsStr "Failed to load calls"] /\
    calls (comp (snd whole_run)) = calls st /\
    uploading (comp (snd whole_run)) = false /\
    uploadProgress (comp (snd whole_run)) = 0.
Proof.
  cbv delta [upload_run flush_timers fire_all run_callback].
  upload_cases backend; rewrite ?Eid; run; cbn; intros H; try discriminate H.
  exists id. repeat split.
Qed.

(** X5.  After a rejected pipeline request the handler shows one error
    toast, which is the [detail] of the error response when that is
    truthy and "Upload failed" otherwise (no response, no body, no or
    empty [detail]); the message shown is therefore never empty. *)
Theorem upload_error_message (r : Request) (response : option Response) :
  In (HttpSettle r (Rejected response)) (trace (snd handler)) ->
  is_post r = true ->
  error_toasts (trace (snd handler))
    = [match response with
       | Some resp =>
           if truthy (optprop (data resp) "detail")
           then optprop (data resp) "detail"
           else JsStr "Upload failed"
       | None => JsStr "Upload failed"
       end] /\
  Forall (fun m => truthy m = true) (error_toasts (trace (snd handler))).
Proof.
  assert (G : forall e : option Response,
             logical_or (error_detail (AxiosError e)) (JsStr "Upload failed")
             = match e with
               | Some resp =>
                   if truthy (optprop (data resp) "detail")
                   then optprop (data resp) "detail"
                   else JsStr "Upload failed"
               | None => JsStr "Upload failed"
               end)
    by (intros [resp|]; reflexivity).
  upload_cases backend; cbn -[logical_or error_detail optprop truthy]; intros H Hp;
    decompose [Logic.or] H; try discriminate; try contradiction;
    match goal with
    | Q : HttpSettle _ _ = HttpSettle _ _ |- _ => injection Q as Q1 Q2
    end;
    try (subst r; discriminate Hp); subst response.
  all: rewrite G; split; [ reflexivity | ].
  all: constructor; [ | constructor ].
  all: rewrite <- G; apply logical_or_truthy; reflexivity.
Qed.

(** X6.  An upload answered with a [null] or [undefined] body fails the
    run although no request was rejected: reading [call_id] throws, the
    upload is the only request, the toast is the generic "Upload failed",
    and the state is reset. *)
Theorem null_upload_body_fails_run (r1 : Response) :
  backend [] up = Resolved r1 ->
  nullish (data r1) = true ->
  requests_of (trace (snd handler)) = [up] /\
  rejected_posts (trace (snd handler)) = [] /\
  error_toasts (trace (snd handler)) = [JsStr "Upload failed"] /\
  success_toasts (trace (snd handler)) = [] /\
  uploading (comp (snd handler)) = false /\
  uploadProgress (comp (snd handler)) = 0.
Proof.
  intros E N. apply prop_nullish with (k := "call_id"%string) in N.
  unfold upload_request in E.
  run. rewrite E. run. rewrite N. run. cbn. repeat split.
Qed.

(** X7.  A body that is not nullish but carries no [call_id] is not
    treated as a failure: the upload step is announced as done and the
    transcription is requested for the identifier [undefined], at
    [{API}/transcribe/undefined]. *)
Theorem missing_call_id_is_not_checked (r1 : Response) :
  backend [] up = Resolved r1 ->
  prop (data r1) "call_id" = Some JsUndefined ->
  (exists more, requests_of (trace (snd handler)) = up :: tr "undefined" :: more) /\
  req_url (tr "undefined") = (API BACKEND_URL ++ "/transcribe/undefined")%string /\
  exists more, success_toasts (trace (snd handler))
               = "File uploaded! Starting transcription..."%string :: more.
Proof.
  intros E P. unfold upload_request in E.
  run. rewrite E. run. rewrite P. run. cbn [toString]. run.
  destruct (backend _ _) as [r2|e2] eqn:E2 in |- *; run;
    [ destruct (backend _ _) as [r3|e3] eqn:E3 in |- *; run;
      [ destruct (backend _ _) as [r4|e4] eqn:E4 in |- *; run | ] | ];
    cbn; (split; [ eexists; reflexivity | split; [ reflexivity | eexists; reflexivity ] ]).
Qed.

End UploadMore.

(* ================================================================== *)
(** ** No handler lets an exception escape *)
(* ================================================================== *)

Section Handlers.

Variable backend : Backend.
Variable BACKEND_URL : option string.
Variable callId : string.

Lemma fire_all_returns (cbs : list (Callback * Z)) (w : World DashState) :
  fst (fire_all cbs w) = Ok tt.
Proof.
  revert w. induction cbs as [|[cb ms] cbs IH]; intros w; [ reflexivity | ].
  destruct cb as [cid]. cbn [fire_all]. cbv delta [run_callback]. run.
  destruct (toString cid); run; apply IH.
Qed.

(** X8.  Whatever the backend answers and whatever the state, each
    handler of the two pages returns normally: a rejected request and the
    TypeError of reading a property of [null] or of converting an
    unprintable value are caught inside the handler, and the timer
    callback runs as a task of its own. *)
Theorem handlers_catch_everything :
  (forall w, fst (fetchCalls backend BACKEND_URL w) = Ok tt) /\
  (forall files w, fst (handleFileUpload backend BACKEND_URL files w) = Ok tt) /\
  (forall files w, fst (upload_run backend BACKEND_URL files w) = Ok tt) /\
  (forall w, fst (fetchCallDetails backend BACKEND_URL callId w) = Ok tt) /\
  (forall format w, fst (handleExport backend BACKEND_URL callId format w) = Ok tt) /\
  (forall format w, fst (click_export backend BACKEND_URL callId format w) = Ok tt).
Proof.
  assert (U : forall files w, fst (handleFileUpload backend BACKEND_URL files w) = Ok tt).
  { intros [|file rest] w; [ reflexivity | ]. upload_cases backend; reflexivity. }
  assert (X : forall format w,
             fst (handleExport backend BACKEND_URL callId format w) = Ok tt).
  { intros format w. run_details.
    destruct (backend _ _) eqn:E in |- *; run; [ | reflexivity ].
    destruct (prop _ _) eqn:P in |- *; run; [ | reflexivity ].
    destruct (toString _) eqn:T in |- *; run; reflexivity. }
  repeat split.
  - intros w. run. destruct (backend _ _) eqn:E in |- *; run; reflexivity.
  - exact U.
  - intros files w. unfold upload_run, bind.
    specialize (U files w).
    destruct (handleFileUpload backend BACKEND_URL files w) as [[[]|e] w'];
      cbn in U; [ | discriminate U ].
    unfold flush_timers. apply fire_all_returns.
  - intros w. run_details. destruct (backend _ _) eqn:E in |- *; run; reflexivity.
  - exact X.
  - intros format w. unfold click_export.
    destruct (export_buttons_rendered (comp w)); [ apply X | reflexivity ].
Qed.

End Handlers.

(* ================================================================== *)
(** ** Loading the list and one call *)
(* ================================================================== *)

Section Loading.

Variable backend : Backend.
Variable BACKEND_URL : option string.
Variable callId : string.

(** X9.  [fetchCalls] replaces the list of calls by the response body
    when the request resolves, without any toast; when it rejects, the
    list keeps its value and "Failed to load calls" is shown.  The upload
    state is never touched. *)
Theorem fetchCalls_outcome (st : DashState) :
  uploading (comp (snd (fetchCalls backend BACKEND_URL (start st)))) = uploading st /\
  uploadProgress (comp (snd (fetchCalls backend BACKEND_URL (start st))))
    = uploadProgress st /\
  match backend [] (list_request BACKEND_URL) with
  | Resolved response =>
      calls (comp (snd (fetchCalls backend BACKEND_URL (start st)))) = data response /\
      error_toasts (trace (snd (fetchCalls backend BACKEND_URL (start st)))) = []
  | Rejected _ =>
      calls (comp (snd (fetchCalls backend BACKEND_URL (start st)))) = calls st /\
      error_toasts (trace (snd (fetchCalls backend BACKEND_URL (start st))))
        = [JsStr "Failed to load calls"]
  end.
Proof.
  unfold list_request. run.
  destruct (backend _ _) eqn:E in |- *; run; cbn; repeat split.
Qed.

(** X10.  Whatever the outcome, [fetchCallDetails] ends with [loading]
    false; [callData] is the response body when the request resolves and
    keeps its previous value, with the toast "Failed to load call
    details", when it rejects. *)
Theorem fetchCallDetails_outcome (st : DetailsState) :
  loading (comp (snd (fetchCallDetails backend BACKEND_URL callId (start st)))) = false /\
  match backend [] (details_request BACKEND_URL callId) with
  | Resolved response =>
      callData (comp (snd (fetchCallDetails backend BACKEND_URL callId (start st))))
        = data response /\
      error_toasts (trace (snd (fetchCallDetails backend BACKEND_URL callId (start st))))
        = []
  | Rejected _ =>
      callData (comp (snd (fetchCallDetails backend BACKEND_URL callId (start st))))
        = callData st /\
      error_toasts (trace (snd (fetchCallDetails backend BACKEND_URL callId (start st))))
        = [JsStr "Failed to load call details"]
  end.
Proof.
  unfold details_request. run_details.
  destruct (backend _ _) eqn:E in |- *; run; cbn; repeat split.
Qed.

(** X11.  After the fetch of a freshly mounted details page the spinner
    is gone: the page shows the details when the request resolved with a
    truthy body, and "Call not found" when it rejected or resolved with a
    falsy body such as [null]. *)
Theorem view_after_mount :
  CallDetails_view
    (comp (snd (fetchCallDetails backend BACKEND_URL callId (start details_init))))
  = match backend [] (details_request BACKEND_URL callId) with
    | Resolved response =>
        if truthy (data response) then DetailsPage (data response) else NotFound
    | Rejected _ => NotFound
    end.
Proof.
  unfold details_request. run_details.
  destruct (backend _ _) eqn:E in |- *; run; reflexivity.
Qed.

(** X12.  When a page that already shows a call fetches again (the route
    parameter changed) and the request rejects, [callData] is not cleared:
    the page keeps showing the previous call, and its export buttons stay
    available. *)
Theorem rejected_refetch_keeps_previous_call (st : DetailsState) (response : option Response) :
  truthy (callData st) = true ->
  backend [] (details_request BACKEND_URL callId) = Rejected response ->
  CallDetails_view (comp (snd (fetchCallDetails backend BACKEND_URL callId (start st))))
    = DetailsPage (callData st) /\
  export_buttons_rendered
    (comp (snd (fetchCallDetails backend BACKEND_URL callId (start st)))) = true.
Proof.
  intros T E. unfold details_request in E. run_details. rewrite E. run.
  unfold CallDetails_view, export_buttons_rendered. cbn. rewrite T. split; reflexivity.
Qed.

(** X13.  An export shows exactly one toast and leaves the component
    state alone: either one download was triggered and the success toast
    names the format in upper case, or nothing was downloaded and "Failed
    to export report" is shown (the request rejected, or the file name
    could not be read or formed). *)
Theorem export_ends_with_one_toast (st : DetailsState) (format : string) :
  comp (snd (handleExport backend BACKEND_URL callId format (start st))) = st /\
  ((exists d,
      downloads (trace (snd (handleExport backend BACKEND_URL callId format (start st))))
        = [d] /\
      success_toasts (trace (snd (handleExport backend BACKEND_URL callId format (start st))))
        = [("Report exported as " ++ toUpperCase format)%string] /\
      error_toasts (trace (snd (handleExport backend BACKEND_URL callId format (start st))))
        = []) \/
   (downloads (trace (snd (handleExport backend BACKEND_URL callId format (start st))))
      = [] /\
    success_toasts (trace (snd (handleExport backend BACKEND_URL callId format (start st))))
      = [] /\
    error_toasts (trace (snd (handleExport backend BACKEND_URL callId format (start st))))
      = [JsStr "Failed to export report"])).
Proof.
  run_details.
  destruct (backend _ _) eqn:E in |- *; run;
    [ destruct (prop _ _) eqn:P in |- *; run;
      [ destruct (toString _) eqn:T in |- *; run | ] | ]; cbn.
  - split; [ destruct st; reflexivity | ]. left. eexists. repeat split.
  - split; [ destruct st; reflexivity | ]. right. repeat split.
  - split; [ destruct st; reflexivity | ]. right. repeat split.
  - split; [ destruct st; reflexivity | ]. right. repeat split.
Qed.

End Loading.

(* ================================================================== *)
(** ** Status badges and the Score cell *)
(* ================================================================== *)

Lemma existsb_eqb_In (key : string) (l : list string) :
  existsb (String.eqb key) l = true <-> In key l.
Proof.
  rewrite existsb_exists. split.
  - intros [x [Hin Hx]]. apply String.eqb_eq in Hx. now subst x.
  - intros Hin. exists key. split; [ assumption | apply String.eqb_refl ].
Qed.

(** The badge of a status in terms of its key alone. *)
Lemma badge_by_key (status : JsValue) (key : string) :
  toString status = Some key ->
  exists badge,
    getStatusBadge status = Some badge /\
    badge_label badge = label_of_key key /\
    badge_testid badge = ("status-badge-" ++ key)%string.
Proof.
  intros K. unfold getStatusBadge. rewrite K. cbv zeta.
  eexists. split; [ reflexivity | ]. split; [ | destruct (statusConfig_get key); reflexivity ].
  unfold statusConfig_get, label_of_key. cbn [own_config statusConfig].
  repeat (match goal with
          | |- context [String.eqb key ?k] => destruct (String.eqb key k); [ reflexivity | ]
          end).
  destruct (existsb (String.eqb key) Object_prototype_keys); reflexivity.
Qed.

Lemma label_of_key_cases (key : string) :
  (label_of_key key = None <-> In key Object_prototype_keys) /\
  (label_of_key key = Some "Pending"%string <->
   key = "pending"%string \/
   (~ In key ["completed"; "processing"; "failed"]%string /\
    ~ In key Object_prototype_keys)) /\
  In (label_of_key key)
     [Some "Completed"; Some "Processing"; Some "Pending"; Some "Failed"; None]%string.
Proof.
  unfold label_of_key.
  assert (Own : forall l : string,
             l <> "Pending"%string ->
             In (Some l) [Some "Completed"; Some "Processing"; Some "Pending";
                          Some "Failed"; None]%string ->
             ~ In key Object_prototype_keys ->
             In key ["completed"; "processing"; "failed"]%string ->
             (Some l = None <-> In key Object_prototype_keys) /\
             (Some l = Some "Pending"%string <->
              key = "pending"%string \/
              (~ In key ["completed"; "processing"; "failed"]%string /\
               ~ In key Object_prototype_keys)) /\
             In (Some l) [Some "Completed"; Some "Processing"; Some "Pending";
                          Some "Failed"; None]%string).
  { intros l Hl Hin Hp Hown. split; [ | split; [ | exact Hin ] ].
    - split; [ discriminate | intros H; contradiction ].
    - split; [ intros H; injection H as H; contradiction | ].
      intros [H|[H _]]; [ | contradiction ].
      subst key. cbn in Hown. decompose [Logic.or] Hown; try discriminate; contradiction. }
  destruct (String.eqb_spec key "completed") as [->|N1].
  { apply Own; cbn; try discriminate; auto.
    intros H; decompose [Logic.or] H; try discriminate; contradiction. }
  destruct (String.eqb_spec key "processing") as [->|N2].
  { apply Own; cbn; try discriminate; auto.
    intros H; decompose [Logic.or] H; try discriminate; contradiction. }
  destruct (String.eqb_spec key "pending") as [->|N3].
  { split; [ | split ].
    - split; [ discriminate | ].
      cbn. intros H; decompose [Logic.or] H; try discriminate; contradiction.
    - split; [ intros _; now left | reflexivity ].
    - cbn; auto. }
  destruct (String.eqb_spec key "failed") as [->|N4].
  { apply Own; cbn; try discriminate; auto 6.
    intros H; decompose [Logic.or] H; try discriminate; contradiction. }
  destruct (existsb (String.eqb key) Object_prototype_keys) eqn:X.
  - apply existsb_eqb_In in X. split; [ | split ].
    + split; auto.
    + split; [ discriminate | ].
      intros [H|[_ H]]; [ contradiction | now elim H ].
    + cbn; auto 6.
  - assert (Hn : ~ In key Object_prototype_keys)
      by (intros H; apply existsb_eqb_In in H; congruence).
    split; [ | split ].
    + split; [ discriminate | intros H; contradiction ].
    + split; [ | reflexivity ].
      intros _. right. split; [ | assumption ].
      cbn. intros [H|[H|[H|H]]]; congruence.
    + cbn; auto.
Qed.

(** X14.  Rendering a status badge throws exactly when the status cannot
    be converted to a property key.  Otherwise the badge exists, its test
    id carries the key, and its label is Completed, Processing, Pending,
    Failed or absent: absent exactly when the key names a property of
    [Object.prototype], Pending exactly for "pending" and for the keys
    that are neither another lifecycle value nor such a name. *)
Theorem badge_label_cases (status : JsValue) :
  (getStatusBadge status = None <-> toString status = None) /\
  forall key, toString status = Some key ->
    exists badge,
      getStatusBadge status = Some badge /\
      badge_testid badge = ("status-badge-" ++ key)%string /\
      (badge_label badge = None <-> In key Object_prototype_keys) /\
      (badge_label badge = Some "Pending"%string <->
       key = "pending"%string \/
       (~ In key ["completed"; "processing"; "failed"]%string /\
        ~ In key Object_prototype_keys)) /\
      In (badge_label badge)
         [Some "Completed"; Some "Processing"; Some "Pending"; Some "Failed"; None]%string.
Proof.
  split.
  - unfold getStatusBadge. destruct (toString status); split; intros H;
      try discriminate H; reflexivity.
  - intros key K. destruct (badge_by_key status key K) as [badge (B & L & T)].
    exists badge. rewrite L. split; [ exact B | ]. split; [ exact T | ].
    apply label_of_key_cases.
Qed.

Lemma completed_badge_key (status : JsValue) (key : string) (badge : Badge) :
  toString status = Some key ->
  getStatusBadge status = Some badge ->
  is_completed_badge badge = String.eqb key "completed".
Proof.
  intros K B. destruct (badge_by_key status key K) as [badge' (B' & L & _)].
  rewrite B in B'. injection B' as <-.
  unfold is_completed_badge. rewrite L. unfold label_of_key.
  repeat (match goal with
          | |- context [if String.eqb key ?k then _ else _] =>
              destruct (String.eqb key k) eqn:?; [ try reflexivity; congruence | ]
          end).
  destruct (existsb (String.eqb key) Object_prototype_keys); reflexivity.
Qed.

(** X15.  Whenever the Status cells of the table render, the Completed
    Analysis statistic does not exceed the number of Completed badges;
    and when every status is a string or is missing, the cells do render
    and the two numbers are equal.  (A status such as the array
    [["completed"]] gets the Completed badge, since it has the key
    "completed", without being [=== "completed"].) *)
Theorem completed_stat_and_badges (calls : list Call) :
  (forall badges, table_badges calls = Some badges ->
     (stats_completedAnalysis calls
      <= List.length (filter is_completed_badge badges))%nat) /\
  ((forall c, In c calls ->
      exists s, analysis_status c = JsStr s \/ nullish (analysis_status c) = true) ->
   exists badges,
     table_badges calls = Some badges /\
     stats_completedAnalysis calls = List.length (filter is_completed_badge badges)).
Proof.
  unfold stats_completedAnalysis. split.
  - induction calls as [|c l IH]; intros badges T.
    + injection T as <-. apply Nat.le_refl.
    + cbn [table_badges] in T.
      destruct (getStatusBadge (analysis_status c)) as [b|] eqn:B; [ | discriminate T ].
      destruct (table_badges l) as [bs|]; [ | discriminate T ].
      injection T as <-. specialize (IH bs eq_refl).
      cbn [filter]. 
      destruct (analysis_status c) as [| |b0|n|text|s|items|props|bytes] eqn:S;
        try (destruct (is_completed_badge b); cbn [List.length]; lia).
      rewrite (completed_badge_key (JsStr s) s b eq_refl B).
      destruct (String.eqb s "completed"); cbn [List.length]; lia.
  - intros H. induction calls as [|c l IH]; [ exists []; split; reflexivity | ].
    assert (Hl : forall c0, In c0 l ->
               exists s, analysis_status c0 = JsStr s \/ nullish (analysis_status c0) = true)
      by (intros c0 Hin; apply H; now right).
    destruct (IH Hl) as [bs [T E]].
    cbn [table_badges filter]. rewrite T.
    destruct (H c (or_introl eq_refl)) as [s [Hs|Hs]].
    + rewrite Hs.
      destruct (badge_by_key (JsStr s) s eq_refl) as [b (B & _ & _)].
      rewrite B. exists (b :: bs). split; [ reflexivity | ].
      cbn [filter]. rewrite (completed_badge_key (JsStr s) s b eq_refl B).
      destruct (String.eqb s "completed"); cbn [List.length]; now rewrite E.
    + destruct (analysis_status c); try discriminate Hs.
      * eexists. split; [ reflexivity | ]. cbn. exact E.
      * eexists. split; [ reflexivity | ]. cbn. exact E.
Qed.

Lemma string_length_append (a b : string) :
  String.length (a ++ b) = (String.length a + String.length b)%nat.
Proof. induction a as [|c a IH]; simpl; [ reflexivity | now rewrite IH ]. Qed.

(** X16.  The Score cell shows a dash exactly for the calls that have no
    score or the score 0: a dash never stands for another score. *)
Theorem score_cell_dash_iff (call : Call) :
  score_cell call = Some "-"%string <->
  overall_score call = None \/
  exists n, overall_score call = Some n /\ int_value n = 0.
Proof.
  unfold score_cell, score_value.
  destruct (overall_score call) as [n|]; cbn [truthy toString].
  - destruct (Z.eqb_spec (int_value n) 0) as [Z0|Hz]; cbn [negb].
    + split; [ intros _; right; exists n; auto | reflexivity ].
    + split.
      * intros H. injection H as H. apply (f_equal String.length) in H.
        rewrite string_length_append in H. simpl in H. lia.
      * intros [H|[n' [H Z0]]]; [ discriminate H | ].
        injection H as <-. contradiction.
  - split; [ auto | reflexivity ].
Qed.

(* ================================================================== *)
(** ** The Average Score stays on the scale *)
(* ================================================================== *)

(** [Math.round(a / b)] in integer arithmetic. *)
Lemma Math_round_div (a b : Z) :
  0 < b -> Math_round (js_div a b) = Fin (inject_Z ((2 * a + b) / (2 * b))).
Proof.
  intros Hb. unfold js_div.
  destruct (Z.eqb_spec b 0) as [E|_]; [ lia | ].
  unfold Math_round. do 2 f_equal.
  destruct b as [|p|p]; try lia.
  unfold Qfloor, Qplus, Qdiv, Qmult, Qinv, inject_Z. cbn [Qnum Qden].
  f_equal; lia.
Qed.

Lemma scores_present_in (calls : list Call) (z : Z) :
  In z (scores_present calls) <->
  exists c n, In c calls /\ overall_score c = Some n /\ int_value n = z.
Proof.
  unfold scores_present. rewrite in_flat_map. split.
  - intros [c [Hc Hz]].
    destruct (overall_score c) as [n|] eqn:E; cbn in Hz; [ | contradiction ].
    destruct Hz as [Hz|[]]. exists c, n. auto.
  - intros [c [n [Hc [Hn Hz]]]]. exists c. split; [ assumption | ].
    rewrite Hn. left. exact Hz.
Qed.

Lemma sum_between (lo hi : Z) (l : list Z) :
  (forall z, In z l -> lo <= z <= hi) ->
  lo * Z.of_nat (List.length l) <= fold_right Z.add 0 l <= hi * Z.of_nat (List.length l).
Proof.
  induction l as [|x l IH]; intros H; [ simpl; lia | ].
  assert (Hx : lo <= x <= hi) by (apply H; now left).
  assert (Hl : forall z, In z l -> lo <= z <= hi) by (intros z Hz; apply H; now right).
  specialize (IH Hl). cbn [fold_right List.length]. lia.
Qed.

(** X17.  When every score lies on the 0-100 scale, the displayed Average
    Score is an integer of that scale, and it is 0 exactly when no call
    has a score other than 0. *)
Theorem displayed_avgScore_on_scale (calls : list Call) :
  (forall c n, In c calls -> overall_score c = Some n -> 0 <= int_value n <= 100) ->
  exists k,
    displayed_avgScore calls = Fin (inject_Z k) /\
    0 <= k <= 100 /\
    (k = 0 <-> with_score calls = []).
Proof.
  intros H.
  assert (B : forall z, In z (scores_present (with_score calls)) -> 1 <= z <= 100).
  { intros z Hz. apply scores_present_in in Hz. destruct Hz as [c [n [Hc [Hn Hz]]]].
    pose proof (with_score_scored calls) as F. rewrite Forall_forall in F.
    destruct (F c Hc) as [n' [Hn' Hnz]]. rewrite Hn in Hn'. injection Hn' as <-.
    unfold with_score in Hc. apply filter_In in Hc. destruct Hc as [Hc _].
    specialize (H c n Hc Hn). lia. }
  apply sum_between in B.
  pose proof (length_with_score calls) as L. rewrite <- L in B.
  unfold displayed_avgScore, stats_avgScore, avgScore_eval, sum_scores.
  rewrite fold_left_scores, Z.add_0_l.
  remember (fold_right Z.add 0 (scores_present (with_score calls))) as S eqn:HS.
  clear HS L.
  destruct calls as [|c l].
  - exists 0. cbn. repeat split; lia.
  - change (0 <? List.length (c :: l))%nat with true. cbv iota. cbn [fst].
    destruct (with_score (c :: l)) as [|c' l'] eqn:W.
    + exists 0. cbn in B. replace S with 0 by lia.
      cbn. repeat split; lia.
    + remember (Z.of_nat (List.length (c' :: l'))) as n eqn:Hn'.
      assert (Hn : 0 < n) by (subst n; cbn [List.length]; lia).
      clear Hn'.
      rewrite Math_round_div by assumption.
      exists ((2 * S + n) / (2 * n)).
      assert (Lo : 1 <= (2 * S + n) / (2 * n))
        by (apply Z.div_le_lower_bound; lia).
      assert (Hi : (2 * S + n) / (2 * n) <= 100)
        by (apply Z.lt_succ_r, Z.div_lt_upper_bound; lia).
      split; [ | split; [ lia | split; [ lia | discriminate ] ] ].
      unfold number_or, number_truthy.
      remember ((2 * S + n) / (2 * n)) as k eqn:Hk. clear Hk.
      destruct (Qeq_bool (inject_Z k) 0) eqn:Q; [ | reflexivity ].
      apply Qeq_bool_iff in Q. unfold Qeq in Q. cbn in Q. lia.
Qed.

(* ================================================================== *)
(** ** The details page *)
(* ================================================================== *)

Lemma entries_from_spec (from : Z) (items : list JsValue) :
  map entry_item (entries_from from items) = items /\
  map entry_key (entries_from from items)
    = map (fun i => from + Z.of_nat i) (seq 0 (List.length items)) /\
  map entry_number (entries_from from items)
    = map (fun i => from + Z.of_nat i + 1) (seq 0 (List.length items)).
Proof.
  revert from. induction items as [|x items IH]; intros from; [ repeat split | ].
  destruct (IH (from + 1)) as (I1 & I2 & I3).
  cbn [entries_from map List.length seq entry_item entry_key entry_number].
  rewrite I1, I2, I3. rewrite <- !seq_shift, !map_map.
  split; [ reflexivity | split ].
  - f_equal; [ cbn; lia | apply map_ext; intros i; lia ].
  - f_equal; [ cbn; lia | apply map_ext; intros i; lia ].
Qed.

(** X18.  A highlights or suggestions field that is an array of n items
    renders n entries, never the fallback: the items in order, with the
    React keys 0, 1, ..., n-1 and the bullets numbered 1, 2, ..., n. *)
Theorem list_view_cases (items : list JsValue) :
  exists entries,
    list_view (JsArr items) = Some (Items entries) /\
    List.length entries = List.length items /\
    map entry_item entries = items /\
    map entry_key entries = map Z.of_nat (seq 0 (List.length items)) /\
    map entry_number entries
      = map (fun i => Z.of_nat i + 1) (seq 0 (List.length items)).
Proof.
  exists (entries_from 0 items).
  destruct (entries_from_spec 0 items) as (I1 & I2 & I3).
  split; [ reflexivity | ].
  split; [ rewrite <- I1 at 2; now rewrite length_map | ].
  split; [ exact I1 | split; [ exact I2 | exact I3 ] ].
Qed.

Lemma sentiment_card_defined (sentiment : JsValue) :
  truthy sentiment = true -> exists card, sentiment_card sentiment = Some card.
Proof.
  intros T. unfold sentiment_card.
  destruct (truthy_prop sentiment "general_sentiment" T) as [g ->].
  destruct (truthy_prop sentiment "empathy" T) as [em ->].
  destruct (truthy_prop sentiment "engagement" T) as [en ->].
  destruct (truthy_prop sentiment "enthusiasm" T) as [et ->].
  destruct (truthy_prop sentiment "politeness" T) as [po ->].
  eexists. reflexivity.
Qed.

(** X19.  For the [callData] of a rendered details page (a truthy value)
    evaluating the page throws exactly when [upload_timestamp] cannot be
    reduced to a primitive for [new Date], or [positive_highlights] or
    [improvement_suggestions] holds something that is neither nullish nor
    an array; a missing or partial analysis never makes it throw. *)
Theorem details_data_throws_iff (callData : JsValue) :
  truthy callData = true ->
  (details_data callData = None <->
   toString (optprop callData "upload_timestamp") = None \/
   mappable (optprop callData "positive_highlights") = false \/
   mappable (optprop callData "improvement_suggestions") = false).
Proof.
  intros T. unfold details_data, optprop, date_evaluates.
  destruct (truthy_prop callData "agent_sentiment" T) as [a ->].
  destruct (truthy_prop callData "prospect_sentiment" T) as [p ->].
  destruct (truthy_prop callData "filename" T) as [name ->].
  destruct (truthy_prop callData "upload_timestamp" T) as [ts ->].
  destruct (truthy_prop callData "overall_score" T) as [score ->].
  destruct (truthy_prop callData "call_summary" T) as [summary ->].
  destruct (truthy_prop callData "positive_highlights" T) as [hl ->].
  destruct (truthy_prop callData "improvement_suggestions" T) as [sg ->].
  destruct (truthy_prop callData "transcription" T) as [tr ->].
  cbv zeta.
  destruct (toString ts) as [text|]; [ | split; auto ].
  destruct (sentiment_card_defined (logical_or a (JsObj [])))
    as [ac ->]; [ apply logical_or_truthy; reflexivity | ].
  destruct (sentiment_card_defined (logical_or p (JsObj [])))
    as [pc ->]; [ apply logical_or_truthy; reflexivity | ].
  destruct hl, sg; cbn; split; intros H;
    try discriminate H; try reflexivity; try tauto;
    decompose [Logic.or] H; discriminate.
Qed.

(** X20.  For a call that has no analysis yet (the analysis fields are
    absent or [null]) and whose [upload_timestamp] can be handed to
    [new Date], the details page shows the score 0, "Analysis in
    progress...", both fallback lists, "Neutral" and 0 for every metric
    of both cards, and "Transcription not available". *)
Theorem details_data_without_analysis (callData : JsValue) :
  truthy callData = true ->
  toString (optprop callData "upload_timestamp") <> None ->
  (forall k, In k ["agent_sentiment"; "prospect_sentiment"; "overall_score";
                   "call_summary"; "positive_highlights";
                   "improvement_suggestions"; "transcription"]%string ->
             nullish (optprop callData k) = true) ->
  details_data callData
  = Some {| shown_filename := optprop callData "filename";
            shown_score := JsInt (safe 0);
            shown_summary := JsStr "Analysis in progress...";
            shown_highlights := Fallback;
            shown_suggestions := Fallback;
            agent_card := {| general_sentiment := JsStr "Neutral";
                             empathy := JsInt (safe 0); engagement := JsInt (safe 0);
                             enthusiasm := JsInt (safe 0);
                             politeness := JsInt (safe 0) |};
            prospect_card := {| general_sentiment := JsStr "Neutral";
                                empathy := JsInt (safe 0); engagement := JsInt (safe 0);
                                enthusiasm := JsInt (safe 0);
                                politeness := JsInt (safe 0) |};
            shown_transcript := JsStr "Transcription not available" |}.
Proof.
  intros T D N.
  assert (F : forall k v, prop callData k = Some v ->
                In k ["agent_sentiment"; "prospect_sentiment"; "overall_score";
                      "call_summary"; "positive_highlights";
                      "improvement_suggestions"; "transcription"]%string ->
                v = JsUndefined \/ v = JsNull).
  { intros k v P Hin. specialize (N k Hin). unfold optprop in N. rewrite P in N.
    destruct v; try discriminate N; auto. }
  unfold details_data, optprop, date_evaluates in *.
  destruct (truthy_prop callData "agent_sentiment" T) as [a Pa].
  destruct (truthy_prop callData "prospect_sentiment" T) as [p Pp].
  destruct (truthy_prop callData "filename" T) as [name Pn].
  destruct (truthy_prop callData "upload_timestamp" T) as [ts Pd].
  destruct (truthy_prop callData "overall_score" T) as [score Ps].
  destruct (truthy_prop callData "call_summary" T) as [summary Pm].
  destruct (truthy_prop callData "positive_highlights" T) as [hl Ph].
  destruct (truthy_prop callData "improvement_suggestions" T) as [sg Pg].
  destruct (truthy_prop callData "transcription" T) as [tr Pt].
  rewrite Pd in D. rewrite Pa, Pp, Pn, Pd, Ps, Pm, Ph, Pg, Pt.
  destruct (toString ts) as [text|]; [ | now elim D ].
  destruct (F _ _ Pa) as [-> | ->]; [ cbn; auto 10 | | ];
  destruct (F _ _ Pp) as [-> | ->]; try (cbn; auto 10; fail);
  destruct (F _ _ Ps) as [-> | ->]; try (cbn; auto 10; fail);
  destruct (F _ _ Pm) as [-> | ->]; try (cbn; auto 10; fail);
  destruct (F _ _ Ph) as [-> | ->]; try (cbn; auto 10; fail);
  destruct (F _ _ Pg) as [-> | ->]; try (cbn; auto 10; fail);
  destruct (F _ _ Pt) as [-> | ->]; try (cbn; auto 10; fail);
  reflexivity.
Qed.

(* ================================================================== *)
(** ** The further properties at sample inputs *)
(* ================================================================== *)

Lemma successful_run_refreshes_list_witness :
  List.length
    (resolved_posts
       (trace (snd (upload_run backend_up sample_url [sample_file] (start dash_init)))))
  = 3%nat /\
  exists id,
    forall response,
      backend_up [upload_request sample_url sample_file;
                  transcribe_request sample_url id; analyze_request sample_url id]
                 (list_request sample_url) = Resolved response ->
      calls (comp (snd (upload_run backend_up sample_url [sample_file] (start dash_init))))
      = data response.
Proof.
  split; [ reflexivity | ].
  destruct (successful_run_refreshes_list backend_up sample_url sample_file []
              dash_init eq_refl) as [id [_ H]].
  exists id. exact H.
Defined.

Lemma rejected_refresh_still_navigates_witness :
  get_rejected
    (trace (snd (upload_run backend_list_down sample_url [sample_file] (start dash_init))))
  = true /\
  exists id,
    navigations
      (trace (snd (upload_run backend_list_down sample_url [sample_file]
                              (start dash_init))))
    = [("/call/" ++ id)%string].
Proof.
  split; [ reflexivity | ].
  destruct (rejected_refresh_still_navigates backend_list_down sample_url sample_file []
              dash_init eq_refl) as [id [H _]].
  exists id. exact H.
Defined.

Lemma upload_error_message_witness :
  error_toasts
    (trace (snd (handleFileUpload backend_transcribe_fails sample_url [sample_file]
                                  (start dash_init))))
  = [JsStr "Transcription failed"].
Proof.
  refine (proj1 (upload_error_message backend_transcribe_fails sample_url sample_file []
                   dash_init (transcribe_request sample_url "c1")
                   (Some {| data := JsObj [("detail", JsStr "Transcription failed")] |})
                   _ eq_refl)).
  vm_compute. tauto.
Defined.

Lemma null_upload_body_fails_run_witness :
  nullish (data {| data := JsNull |}) = true /\
  requests_of
    (trace (snd (handleFileUpload backend_null_body sample_url [sample_file]
                                  (start dash_init))))
  = [upload_request sample_url sample_file].
Proof.
  split; [ reflexivity | ].
  exact (proj1 (null_upload_body_fails_run backend_null_body sample_url sample_file []
                  dash_init {| data := JsNull |} eq_refl eq_refl)).
Defined.

Lemma missing_call_id_is_not_checked_witness :
  prop (JsObj [("status", JsStr "ok")]) "call_id" = Some JsUndefined /\
  exists more,
    requests_of
      (trace (snd (handleFileUpload backend_no_call_id sample_url [sample_file]
                                    (start dash_init))))
    = upload_request sample_url sample_file
      :: transcribe_request sample_url "undefined" :: more.
Proof.
  split; [ reflexivity | ].
  exact (proj1 (missing_call_id_is_not_checked backend_no_call_id sample_url sample_file
                  [] dash_init {| data := JsObj [("status", JsStr "ok")] |}
                  eq_refl eq_refl)).
Defined.

Lemma rejected_refetch_keeps_previous_call_witness :
  truthy (callData sample_details) = true /\
  CallDetails_view
    (comp (snd (fetchCallDetails backend_down sample_url "c2" (start sample_details))))
  = DetailsPage (callData sample_details).
Proof.
  split; [ reflexivity | ].
  exact (proj1 (rejected_refetch_keeps_previous_call backend_down sample_url "c2"
                  sample_details None eq_refl eq_refl)).
Defined.

Lemma displayed_avgScore_on_scale_witness :
  exists k,
    displayed_avgScore [sample_call (Some (safe 0)); sample_call None;
                        sample_call (Some (safe 100))]
    = Fin (inject_Z k) /\ 0 <= k <= 100.
Proof.
  destruct (displayed_avgScore_on_scale
              [sample_call (Some (safe 0)); sample_call None;
               sample_call (Some (safe 100))])
    as [k [E [B _]]].
  - intros c n Hc Hn. cbn in Hc. decompose [Logic.or] Hc; try contradiction;
      subst c; cbn in Hn; try discriminate Hn; injection Hn as <-; cbn; lia.
  - exists k. split; assumption.
Defined.

Lemma completed_stat_and_badges_witness :
  exists badges,
    table_badges [sample_call (Some (safe 80)); sample_call None] = Some badges /\
    stats_completedAnalysis [sample_call (Some (safe 80)); sample_call None]
    = List.length (filter is_completed_badge badges).
Proof.
  apply (proj2 (completed_stat_and_badges
                  [sample_call (Some (safe 80)); sample_call None])).
  intros c Hc. exists "completed"%string. left.
  cbn in Hc. decompose [Logic.or] Hc; try contradiction; subst c; reflexivity.
Defined.

Lemma details_data_throws_iff_witness :
  truthy (JsObj [("filename", JsStr "call.mp3"); ("upload_timestamp", unprintable)])
  = true /\
  details_data (JsObj [("filename", JsStr "call.mp3"); ("upload_timestamp", unprintable)])
  = None.
Proof.
  split; [ reflexivity | ].
  apply (details_data_throws_iff
           (JsObj [("filename", JsStr "call.mp3"); ("upload_timestamp", unprintable)])
           eq_refl).
  left. reflexivity.
Defined.

Lemma details_data_without_analysis_witness :
  truthy pending_call = true /\
  exists d, details_data pending_call = Some d /\ shown_score d = JsInt (safe 0).
Proof.
  split; [ reflexivity | ].
  eexists. split.
  - apply (details_data_without_analysis pending_call eq_refl).
    + discriminate.
    + intros k Hk. cbn in Hk.
      decompose [Logic.or] Hk; try contradiction; subst k; reflexivity.
  - reflexivity.
Defined.
